(** * Query interpretation service: a shallow embedding of
      [backend/llm_utils.py] and [backend/app.py]

    The development follows the two Python modules.  Python values that
    travel through the code (decoded JSON documents) are an inductive type,
    Python exceptions are an error monad, and the two library calls the
    code is built on, [re.findall] with the pattern [\{.*?\}] and
    [json.loads], are written out as executable functions.

    Strings are [String.string]: a Python [str] is read as the sequence of
    its UTF-8 bytes.  The ASCII characters the code looks at (braces,
    quotes, blanks, the letters of "feet") are single characters here;
    where the code asks for the class of a character ([str.isdigit],
    [int]) the bytes are decoded to code points first.

    What depends on the interpreter that runs the code (the longest
    string of digits [int] converts, the room left for recursion, the
    characters the standard output writes) is a parameter, the class
    [Interpreter]. *)

From Stdlib Require Import ZArith List Bool Ascii String Lia.
From Stdlib Require Import Floats.SpecFloat.
Import ListNotations.

Local Open Scope string_scope.
Local Open Scope Z_scope.

Set Implicit Arguments.
Local Set Warnings "-register-all".

(* ------------------------------------------------------------------ *)
(** ** Exceptions *)

(** The exception classes that the modelled code can see.  All of them
    derive from [Exception]. *)
Inductive exn : Type :=
| ConnectionError      (* requests.post could not reach the endpoint *)
| HTTPError            (* response.raise_for_status() *)
| JSONDecodeError      (* json.loads / response.json() *)
| FileNotFoundError    (* open() *)
| TypeError
| KeyError
| IndexError
| AttributeError
| OverflowError
| ValueError
| RecursionError
| UnicodeEncodeError.   (* a subclass of ValueError *)

Inductive exc (A : Type) : Type :=
| Ok (a : A)
| Raise (e : exn).

Arguments Ok {A} a.
Arguments Raise {A} e.

Definition bind {A B : Type} (c : exc A) (k : A -> exc B) : exc B :=
  match c with
  | Ok a => k a
  | Raise e => Raise e
  end.

Notation "x <- c ;; k" := (bind c (fun x => k))
  (at level 61, c at next level, right associativity).

(** [try: body except cls: handler] *)
Definition try_except {A : Type} (body : exc A) (cls : exn -> bool)
           (handler : exn -> exc A) : exc A :=
  match body with
  | Ok a => Ok a
  | Raise e => if cls e then handler e else Raise e
  end.

(** [except Exception] *)
Definition is_Exception (e : exn) : bool :=
  match e with
  | ConnectionError | HTTPError | JSONDecodeError | FileNotFoundError
  | TypeError | KeyError | IndexError | AttributeError | OverflowError
  | ValueError | RecursionError | UnicodeEncodeError => true
  end.

(** [except json.JSONDecodeError] *)
Definition is_JSONDecodeError (e : exn) : bool :=
  match e with
  | JSONDecodeError => true
  | _ => false
  end.

(* ------------------------------------------------------------------ *)
(** ** The interpreter

    Some of what the code does depends on the interpreter that runs it,
    and the source fixes none of it.

    - [int_max_str_digits] is [sys.get_int_max_str_digits()]: the
      longest string of digits that converts to an [int], 4300 unless
      configured, 0 for no limit.
    - [recursion_remaining] is the number of JSON objects and arrays, one
      inside the other, that [json.loads] called from [parse_query] can
      open before the recursion limit is reached.  It depends on the
      frames on the stack when the view runs.
    - [requests_frames] is the number of frames [response.json()] adds
      before it reaches the same decoder.
    - [stdout_surrogate] tells which lone surrogates [sys.stdout]
      writes.  The stream is taken to encode as UTF-8; no surrogate is
      written under the error handler [strict], the code points U+DC80
      to U+DCFF under [surrogateescape], all of them under the handlers
      that replace or escape.

    What is proved below holds for every interpreter. *)

Class Interpreter : Type := {
  int_max_str_digits : nat;
  recursion_remaining : nat;
  requests_frames : nat;
  stdout_surrogate : Z -> bool
}.

(** A string of [n] digits converts to an [int]. *)
Definition digits_allowed {I : Interpreter} (n : nat) : bool :=
  Nat.eqb int_max_str_digits 0 || Nat.leb n int_max_str_digits.

(* ------------------------------------------------------------------ *)
(** ** Python floats

    A Python [float] is an IEEE 754 binary64 number; the operations are
    the ones of the Standard Library's [SpecFloat] at precision 53. *)

Module PyFloat.

Definition prec : Z := 53.
Definition emax : Z := 1024.
Definition t := spec_float.

(** [float(z)] for an [int]: round to nearest, ties to even; the result
    is infinite exactly when Python raises [OverflowError]. *)
Definition of_Z (z : Z) : t := binary_normalize prec emax z 0 false.

(** The float nearest to [n / d]. *)
Definition of_ratio (neg : bool) (n d : positive) : t :=
  SFdiv prec emax (S754_finite neg n 0) (S754_finite false d 0).

(** [float("<m>e<e>")]: the float nearest to [m * 10^e], [0 <= m]. *)
Definition of_decimal (neg : bool) (m e : Z) : t :=
  match m with
  | Zpos p =>
      if 0 <=? e
      then binary_normalize prec emax
             (if neg then - (m * 10 ^ e) else m * 10 ^ e) 0 false
      else of_ratio neg p (Z.to_pos (10 ^ (- e)))
  | _ => S754_zero neg
  end.

Definition mul : t -> t -> t := SFmul prec emax.

Definition is_finite (x : t) : bool :=
  match x with
  | S754_zero _ | S754_finite _ _ _ => true
  | _ => false
  end.

Definition is_zero (x : t) : bool :=
  match x with
  | S754_zero _ => true
  | _ => false
  end.

(** [n / d] rounded to an integer, ties to even ([0 <= n], [0 < d]). *)
Definition half_even (n d : Z) : Z :=
  let q := n / d in
  let r := n mod d in
  match 2 * r ?= d with
  | Lt => q
  | Gt => q + 1
  | Eq => if Z.even q then q else q + 1
  end.

(** [round(x, 2)]: the exact value of [x] is rounded to a multiple of
    1/100, ties to even, and the float nearest to that decimal is
    returned; infinities and NaN round to themselves. *)
Definition round2 (x : t) : t :=
  match x with
  | S754_finite s m e =>
      let k := if 0 <=? e then Zpos m * 2 ^ e * 100
               else half_even (Zpos m * 100) (2 ^ (- e)) in
      match k with
      | Zpos p => of_ratio s p 100
      | _ => S754_zero s
      end
  | _ => x
  end.

(** The literal [0.3048]. *)
Definition feet_to_meters : t := Eval vm_compute in of_decimal false 3048 (-4).

End PyFloat.

(* ------------------------------------------------------------------ *)
(** ** Python values *)

(** What [json.loads] can return.  A [dict] keeps its keys in insertion
    order; its keys are strings because they come from JSON objects. *)
Inductive value : Type :=
| VNone
| VBool (b : bool)
| VInt (z : Z)
| VFloat (f : PyFloat.t)
| VStr (s : string)
| VList (l : list value)
| VDict (d : list (string * value)).

Definition dict : Type := list (string * value).

(** [d.get(k)] as an option; [None] is the absent key. *)
Fixpoint lookup (k : string) (d : dict) : option value :=
  match d with
  | [] => None
  | (k', v) :: d' => if String.eqb k k' then Some v else lookup k d'
  end.

(** [k in d] *)
Definition mem (k : string) (d : dict) : bool :=
  match lookup k d with
  | Some _ => true
  | None => false
  end.

(** [d[k] = v]: an existing key keeps its place, a new key goes last. *)
Fixpoint dict_set (k : string) (v : value) (d : dict) : dict :=
  match d with
  | [] => [(k, v)]
  | (k', v') :: d' =>
      if String.eqb k k' then (k', v) :: d' else (k', v') :: dict_set k v d'
  end.

(** [d.get(k)], with Python's default [None] *)
Definition dict_get (k : string) (d : dict) : value :=
  match lookup k d with
  | Some v => v
  | None => VNone
  end.

(** [d.get(k, default)] *)
Definition dict_get_default (k : string) (default : value) (d : dict) : value :=
  match lookup k d with
  | Some v => v
  | None => default
  end.

(** [d[k]] *)
Definition getitem (k : string) (d : dict) : exc value :=
  match lookup k d with
  | Some v => Ok v
  | None => Raise KeyError
  end.

(** [list(d.keys())] *)
Definition keys (d : dict) : list string := map fst d.

(** [bool(v)] *)
Definition truthy (v : value) : bool :=
  match v with
  | VNone => false
  | VBool b => b
  | VInt z => negb (z =? 0)
  | VFloat f => negb (PyFloat.is_zero f)
  | VStr s => negb (String.eqb s "")
  | VList l => match l with [] => false | _ => true end
  | VDict d => match d with [] => false | _ => true end
  end.

(** [v is not None] *)
Definition is_not_None (v : value) : bool :=
  match v with
  | VNone => false
  | _ => true
  end.

(** [v == s] for a string literal [s] *)
Definition eq_str (v : value) (s : string) : bool :=
  match v with
  | VStr s' => String.eqb s' s
  | _ => false
  end.

(* ------------------------------------------------------------------ *)
(** ** Characters

    The code points of a string, and the two character classes that
    [str.isdigit] and [int] go by (Unicode 14 property data): the decimal
    digits, which come in runs of ten starting at a zero, and the other
    characters whose numeric type is Digit. *)

Module Unicode.

Definition byte (c : ascii) : Z := Z.of_N (N_of_ascii c).
Definition chr (z : Z) : ascii := ascii_of_N (Z.to_N z).

Definition is_cont (c : ascii) : bool := (128 <=? byte c) && (byte c <=? 191).

(** UTF-8 to code points.  A byte that starts no well-formed sequence
    stands for itself. *)
Fixpoint decode (s : string) : list Z :=
  match s with
  | EmptyString => []
  | String a s1 =>
      let one := byte a :: decode s1 in
      if byte a <? 192 then one else
      match s1 with
      | String b s2 =>
          if negb (is_cont b) then one else
          if byte a <? 224
          then ((byte a - 192) * 64 + (byte b - 128)) :: decode s2
          else
          match s2 with
          | String c s3 =>
              if negb (is_cont c) then one else
              if byte a <? 240
              then ((byte a - 224) * 4096 + (byte b - 128) * 64
                    + (byte c - 128)) :: decode s3
              else
              match s3 with
              | String d s4 =>
                  if negb (is_cont d) then one else
                  ((byte a - 240) * 262144 + (byte b - 128) * 4096
                   + (byte c - 128) * 64 + (byte d - 128)) :: decode s4
              | EmptyString => one
              end
          | EmptyString => one
          end
      | EmptyString => one
      end
  end.

(** One code point to UTF-8. *)
Definition encode (cp : Z) : string :=
  if cp <? 128 then String (chr cp) EmptyString
  else if cp <? 2048 then
    String (chr (192 + cp / 64)) (String (chr (128 + cp mod 64)) EmptyString)
  else if cp <? 65536 then
    String (chr (224 + cp / 4096))
      (String (chr (128 + (cp / 64) mod 64))
         (String (chr (128 + cp mod 64)) EmptyString))
  else
    String (chr (240 + cp / 262144))
      (String (chr (128 + (cp / 4096) mod 64))
         (String (chr (128 + (cp / 64) mod 64))
            (String (chr (128 + cp mod 64)) EmptyString))).

(** The zero of every run of decimal digits. *)
Definition decimal_zeros : list Z :=
  [48; 1632; 1776; 1984; 2406; 2534; 2662; 2790; 2918; 3046; 3174; 3302;
   3430; 3558; 3664; 3792; 3872; 4160; 4240; 6112; 6160; 6470; 6608; 6784;
   6800; 6992; 7088; 7232; 7248; 42528; 43216; 43264; 43472; 43504; 43600;
   44016; 65296; 66720; 68912; 69734; 69872; 69942; 70096; 70384; 70736;
   70864; 71248; 71360; 71472; 71904; 72016; 72784; 73040; 73120; 92768;
   92864; 93008; 120782; 120792; 120802; 120812; 120822; 123200; 123632;
   125264; 130032].

(** Digits that are not decimal: superscripts and subscripts, circled
    and parenthesized digits and the like. *)
Definition other_digits : list (Z * Z) :=
  [(178, 179); (185, 185); (4969, 4977); (6618, 6618); (8304, 8304);
   (8308, 8313); (8320, 8329); (9312, 9320); (9332, 9340); (9352, 9360);
   (9450, 9450); (9461, 9469); (9471, 9471); (10102, 10110);
   (10112, 10120); (10122, 10130); (68160, 68163); (69216, 69224);
   (69714, 69722); (127232, 127242)].

Definition is_decimal (cp : Z) : bool :=
  existsb (fun z => (z <=? cp) && (cp <=? z + 9)) decimal_zeros.

Definition is_digit (cp : Z) : bool :=
  is_decimal cp ||
  existsb (fun r => (fst r <=? cp) && (cp <=? snd r)) other_digits.

(** The surrogates, for which UTF-8 has no encoding. *)
Definition is_surrogate (cp : Z) : bool := (55296 <=? cp) && (cp <=? 57343).

(** The value of a decimal digit. *)
Definition decimal_value (cp : Z) : Z :=
  match find (fun z => (z <=? cp) && (cp <=? z + 9)) decimal_zeros with
  | Some z => cp - z
  | None => 0
  end.

End Unicode.

(* ------------------------------------------------------------------ *)
(** ** String methods *)

Module Str.

Definition code (c : ascii) : Z := Z.of_N (N_of_ascii c).

Definition in_range (lo hi : Z) (c : ascii) : bool :=
  (lo <=? code c) && (code c <=? hi).

Definition is_upper (c : ascii) : bool := in_range 65 90 c.

(** Whitespace as [str.strip] sees it, among the ASCII characters:
    tab to carriage return, the four separators 28 to 31, and space. *)
Definition is_space (c : ascii) : bool :=
  in_range 9 13 c || in_range 28 32 c.

Definition lower_char (c : ascii) : ascii :=
  if is_upper c then ascii_of_N (N_of_ascii c + 32) else c.

(** [s.lower()], on the ASCII letters.  No character outside ASCII has
    a lower case that contains one of the letters f, e, t, so that the
    test ["feet" in query.lower()] comes out as in Python. *)
Fixpoint lower (s : string) : string :=
  match s with
  | EmptyString => EmptyString
  | String c s' => String (lower_char c) (lower s')
  end.

(** [s.startswith(p)] *)
Fixpoint startswith (p s : string) : bool :=
  match p, s with
  | EmptyString, _ => true
  | String a p', String b s' => Ascii.eqb a b && startswith p' s'
  | String _ _, EmptyString => false
  end.

(** [p in s] *)
Fixpoint contains (p s : string) : bool :=
  startswith p s ||
  match s with
  | EmptyString => false
  | String _ s' => contains p s'
  end.

Fixpoint lstrip (s : string) : string :=
  match s with
  | String c s' => if is_space c then lstrip s' else s
  | EmptyString => EmptyString
  end.

Fixpoint rstrip (s : string) : string :=
  match s with
  | EmptyString => EmptyString
  | String c s' =>
      match rstrip s' with
      | EmptyString => if is_space c then EmptyString else String c EmptyString
      | r => String c r
      end
  end.

(** [s.strip()], for the ASCII blanks.  The blanks outside ASCII that
    Python strips as well are no braces either, and the candidate blocks
    do not depend on what is stripped ([findall_strip]). *)
Definition strip (s : string) : string := rstrip (lstrip s).

(** [s.isdigit()]: every character is a digit and there is at least
    one character. *)
Definition isdigit (s : string) : bool :=
  match Unicode.decode s with
  | [] => false
  | cps => forallb Unicode.is_digit cps
  end.

(** [s.isdecimal()] *)
Definition isdecimal (s : string) : bool :=
  match Unicode.decode s with
  | [] => false
  | cps => forallb Unicode.is_decimal cps
  end.

(** [int(s)] on a string for which [s.isdigit()] holds, the only kind
    the code passes to it: the number in base ten when every character
    is a decimal digit and there are no more of them than the
    interpreter converts, and [ValueError] otherwise (a digit that is
    not decimal, such as a superscript; too many digits). *)
Definition int {I : Interpreter} (s : string) : exc Z :=
  if isdecimal s && digits_allowed (List.length (Unicode.decode s))
  then Ok (fold_left (fun acc cp => 10 * acc + Unicode.decimal_value cp)
                     (Unicode.decode s) 0)
  else Raise ValueError.

(** [sys.stdout] writes [s]: every character is one the stream
    encodes. *)
Definition printable {I : Interpreter} (s : string) : bool :=
  forallb (fun cp => negb (Unicode.is_surrogate cp) || stdout_surrogate cp)
          (Unicode.decode s).

End Str.

(* ------------------------------------------------------------------ *)
(** ** [re.findall(r"\{.*?\}", text, re.DOTALL)] *)

Module Re.

Definition open_brace : ascii := "{"%char.
Definition close_brace : ascii := "}"%char.

(** One left-to-right pass.  [cur] is [None] while the engine looks for
    a [{], and [Some b] once it is inside a candidate, [b] being the
    text matched so far.  With [re.DOTALL] the dot takes every
    character, line breaks included; the lazy [.*?] gives up at the
    first [}].  A [{] that no [}] follows matches nothing, and then no
    later position can match either. *)
Fixpoint scan (cur : option string) (s : string) : list string :=
  match s with
  | EmptyString => []
  | String c s' =>
      match cur with
      | None =>
          if Ascii.eqb c open_brace
          then scan (Some (String c EmptyString)) s'
          else scan None s'
      | Some b =>
          if Ascii.eqb c close_brace
          then (b ++ String c EmptyString)%string :: scan None s'
          else scan (Some (b ++ String c EmptyString)%string) s'
      end
  end.

Definition findall (text : string) : list string := scan None text.

(** The lazy body [.*?\}] tried at the head of [s]: the shortest prefix
    that ends with [}], and what follows it. *)
Fixpoint split_close (s : string) : option (string * string) :=
  match s with
  | EmptyString => None
  | String c s' =>
      if Ascii.eqb c close_brace then Some (String c EmptyString, s')
      else match split_close s' with
           | Some (b, r) => Some (String c b, r)
           | None => None
           end
  end.

(** [c not in s] *)
Fixpoint free_of (c : ascii) (s : string) : bool :=
  match s with
  | EmptyString => true
  | String a s' => negb (Ascii.eqb a c) && free_of c s'
  end.

End Re.

(* ------------------------------------------------------------------ *)
(** ** [json.loads]

    The decoder of Python's [json] module with its default settings:
    strict strings, the constants [NaN], [Infinity] and [-Infinity]
    accepted, the last of two equal keys kept.  The recursion is driven
    by a fuel that exceeds twice the length of the text, which is more
    than any text uses up ([loads_fuel]). *)

Module Json.

Definition is_ws (c : ascii) : bool :=
  Ascii.eqb c " " || Ascii.eqb c "009" || Ascii.eqb c "010" || Ascii.eqb c "013".

Fixpoint skip_ws (s : string) : string :=
  match s with
  | String c s' => if is_ws c then skip_ws s' else s
  | EmptyString => EmptyString
  end.

Definition is_digit (c : ascii) : bool :=
  (48 <=? Unicode.byte c) && (Unicode.byte c <=? 57).

(** The longest prefix of digits, and the rest. *)
Fixpoint span_digits (s : string) : string * string :=
  match s with
  | String c s' =>
      if is_digit c
      then let (ds, r) := span_digits s' in (String c ds, r)
      else (EmptyString, s)
  | EmptyString => (EmptyString, EmptyString)
  end.

Fixpoint digits_value (acc : Z) (ds : string) : Z :=
  match ds with
  | EmptyString => acc
  | String c ds' => digits_value (10 * acc + (Unicode.byte c - 48)) ds'
  end.

(** [s] without the prefix [p], when it has it. *)
Fixpoint strip_prefix (p s : string) : option string :=
  match p, s with
  | EmptyString, _ => Some s
  | String a p', String b s' =>
      if Ascii.eqb a b then strip_prefix p' s' else None
  | String _ _, EmptyString => None
  end.

(** [s] after its first character, when that is [c]. *)
Definition expect (c : ascii) (s : string) : option string :=
  match s with
  | String x r => if Ascii.eqb x c then Some r else None
  | EmptyString => None
  end.

(** *** Numbers: an optional minus sign, an integer part without a
    leading zero, an optional fraction, an optional exponent *)

Definition int_part (s : string) : option (string * string) :=
  match s with
  | String c s' =>
      if Ascii.eqb c "0" then Some ("0", s')
      else if is_digit c then Some (span_digits s)
      else None
  | EmptyString => None
  end.

Definition frac_part (s : string) : option (string * string) :=
  match expect "." s with
  | Some (String d _ as s') =>
      if is_digit d then Some (span_digits s') else None
  | _ => None
  end.

Definition exp_part (s : string) : option (Z * string) :=
  match s with
  | String c s' =>
      if Ascii.eqb c "e" || Ascii.eqb c "E" then
        let '(neg, s'') :=
          match expect "-" s', expect "+" s' with
          | Some t, _ => (true, t)
          | None, Some t => (false, t)
          | None, None => (false, s')
          end in
        match span_digits s'' with
        | (EmptyString, _) => None
        | (ds, r) =>
            Some (if neg then - digits_value 0 ds else digits_value 0 ds, r)
        end
      else None
  | EmptyString => None
  end.

Definition match_number (s : string) : option (value * string) :=
  let '(neg, s0) :=
    match expect "-" s with
    | Some t => (true, t)
    | None => (false, s)
    end in
  match int_part s0 with
  | None => None
  | Some (i, s1) =>
      let '(f, s2, has_f) :=
        match frac_part s1 with
        | Some (f, s2) => (f, s2, true)
        | None => (EmptyString, s1, false)
        end in
      let '(e, s3, has_e) :=
        match exp_part s2 with
        | Some (e, s3) => (e, s3, true)
        | None => (0, s2, false)
        end in
      if has_f || has_e
      then Some (VFloat (PyFloat.of_decimal neg (digits_value 0 (i ++ f))
                           (e - Z.of_nat (String.length f))), s3)
      else Some (VInt (if neg then - digits_value 0 i else digits_value 0 i), s3)
  end.

(** *** Strings *)

Inductive item : Type :=
| Plain (c : ascii)           (* a character of the text *)
| Escaped (cp : Z).           (* the code unit of an escape *)

Definition hex_val (c : ascii) : option Z :=
  let b := Unicode.byte c in
  if (48 <=? b) && (b <=? 57) then Some (b - 48)
  else if (97 <=? b) && (b <=? 102) then Some (b - 87)
  else if (65 <=? b) && (b <=? 70) then Some (b - 55)
  else None.

Definition hex4 (a b c d : ascii) : option Z :=
  match hex_val a, hex_val b, hex_val c, hex_val d with
  | Some x, Some y, Some z, Some w => Some (((x * 16 + y) * 16 + z) * 16 + w)
  | _, _, _, _ => None
  end.

Definition simple_escape (c : ascii) : option Z :=
  if Ascii.eqb c "034" then Some 34
  else if Ascii.eqb c "\" then Some 92
  else if Ascii.eqb c "/" then Some 47
  else if Ascii.eqb c "b" then Some 8
  else if Ascii.eqb c "f" then Some 12
  else if Ascii.eqb c "n" then Some 10
  else if Ascii.eqb c "r" then Some 13
  else if Ascii.eqb c "t" then Some 9
  else None.

(** The items of a string literal up to its closing quote, the text
    standing just after the opening quote. *)
Fixpoint scan_items (s : string) : option (list item * string) :=
  match s with
  | EmptyString => None
  | String c s1 =>
      if Ascii.eqb c "034" then Some ([], s1)
      else if Ascii.eqb c "\" then
        match s1 with
        | String e s2 =>
            if Ascii.eqb e "u" then
              match s2 with
              | String h1 (String h2 (String h3 (String h4 s3))) =>
                  match hex4 h1 h2 h3 h4, scan_items s3 with
                  | Some cp, Some (its, r) => Some (Escaped cp :: its, r)
                  | _, _ => None
                  end
              | _ => None
              end
            else
              match simple_escape e, scan_items s2 with
              | Some cp, Some (its, r) => Some (Escaped cp :: its, r)
              | _, _ => None
              end
        | EmptyString => None
        end
      else if Unicode.byte c <=? 31 then None
      else
        match scan_items s1 with
        | Some (its, r) => Some (Plain c :: its, r)
        | None => None
        end
  end.

Definition is_high (cp : Z) : bool := (55296 <=? cp) && (cp <=? 56319).
Definition is_low (cp : Z) : bool := (56320 <=? cp) && (cp <=? 57343).

(** The decoded string: an escaped high surrogate directly followed by
    an escaped low surrogate is one character. *)
Fixpoint assemble (its : list item) : string :=
  match its with
  | [] => EmptyString
  | Plain c :: tl => String c (assemble tl)
  | Escaped hi :: tl =>
      match tl with
      | Escaped lo :: tl' =>
          if is_high hi && is_low lo
          then Unicode.encode (65536 + (hi - 55296) * 1024 + (lo - 56320))
               ++ assemble tl'
          else Unicode.encode hi ++ assemble tl
      | _ => Unicode.encode hi ++ assemble tl
      end
  end.

Definition scanstring (s : string) : option (string * string) :=
  match scan_items s with
  | Some (its, r) => Some (assemble its, r)
  | None => None
  end.

(** *** Values *)

(** The digits of the integer part of the number at the head of [s]. *)
Definition int_literal_digits (s : string) : nat :=
  match int_part (match expect "-" s with Some t => t | None => s end) with
  | Some (i, _) => String.length i
  | None => O
  end.

(** A number: an integer literal is converted by [int], which refuses
    more digits than the interpreter allows; a literal with a fraction
    or an exponent is converted by [float], which has no such limit. *)
Definition number {I : Interpreter} (s : string) : exc (value * string) :=
  match match_number s with
  | Some (VInt z, r) =>
      if digits_allowed (int_literal_digits s)
      then Ok (VInt z, r) else Raise ValueError
  | Some (v, r) => Ok (v, r)
  | None => Raise JSONDecodeError
  end.

(** [scan_once]: one value at the head of [s], and the text after it.
    [members] reads the pairs of an object from the first key on, and
    [elements] the items of an array from the first item on.  [depth]
    is the number of objects and arrays that may still be opened: the
    scanner enters a recursive call for each of them, and for nothing
    else. *)
Fixpoint scan_once {I : Interpreter} (fuel depth : nat) (s : string)
  : exc (value * string) :=
  match fuel with
  | O => Raise JSONDecodeError
  | S n =>
      match s with
      | EmptyString => Raise JSONDecodeError
      | String c r =>
          if Ascii.eqb c "034" then
            match scanstring r with
            | Some (str, r') => Ok (VStr str, r')
            | None => Raise JSONDecodeError
            end
          else if Ascii.eqb c "{" then
            match depth with
            | O => Raise RecursionError
            | S k =>
                match expect "}" (skip_ws r) with
                | Some r' => Ok (VDict [], r')
                | None => members n k [] (skip_ws r)
                end
            end
          else if Ascii.eqb c "[" then
            match depth with
            | O => Raise RecursionError
            | S k =>
                match expect "]" (skip_ws r) with
                | Some r' => Ok (VList [], r')
                | None => elements n k [] (skip_ws r)
                end
            end
          else
            match strip_prefix "null" s, strip_prefix "true" s,
                  strip_prefix "false" s, strip_prefix "NaN" s,
                  strip_prefix "Infinity" s, strip_prefix "-Infinity" s with
            | Some r', _, _, _, _, _ => Ok (VNone, r')
            | _, Some r', _, _, _, _ => Ok (VBool true, r')
            | _, _, Some r', _, _, _ => Ok (VBool false, r')
            | _, _, _, Some r', _, _ => Ok (VFloat S754_nan, r')
            | _, _, _, _, Some r', _ => Ok (VFloat (S754_infinity false), r')
            | _, _, _, _, _, Some r' => Ok (VFloat (S754_infinity true), r')
            | None, None, None, None, None, None => number s
            end
      end
  end

with members {I : Interpreter} (fuel depth : nat) (acc : dict) (s : string)
  : exc (value * string) :=
  match fuel with
  | O => Raise JSONDecodeError
  | S n =>
      match expect "034" s with
      | Some r =>
          match scanstring r with
          | Some (key, r1) =>
              match expect ":" (skip_ws r1) with
              | Some r2 =>
                  match scan_once n depth (skip_ws r2) with
                  | Ok (v, r3) =>
                      let acc' := dict_set key v acc in
                      match expect "}" (skip_ws r3), expect "," (skip_ws r3) with
                      | Some r4, _ => Ok (VDict acc', r4)
                      | None, Some r4 => members n depth acc' (skip_ws r4)
                      | None, None => Raise JSONDecodeError
                      end
                  | Raise e => Raise e
                  end
              | None => Raise JSONDecodeError
              end
          | None => Raise JSONDecodeError
          end
      | None => Raise JSONDecodeError
      end
  end

with elements {I : Interpreter} (fuel depth : nat) (acc : list value) (s : string)
  : exc (value * string) :=
  match fuel with
  | O => Raise JSONDecodeError
  | S n =>
      match scan_once n depth s with
      | Ok (v, r1) =>
          let acc' := (acc ++ [v])%list in
          match expect "]" (skip_ws r1), expect "," (skip_ws r1) with
          | Some r2, _ => Ok (VList acc', r2)
          | None, Some r2 => elements n depth acc' (skip_ws r2)
          | None, None => Raise JSONDecodeError
          end
      | Raise e => Raise e
      end
  end.

(** The decoder with room for [depth] objects and arrays one inside
    the other: leading blanks, one value, trailing blanks, end of text.
    A text that is no JSON document is a [JSONDecodeError]; an integer
    literal with too many digits is a [ValueError] and a nesting too
    deep a [RecursionError], each raised where the scanner meets it. *)
Definition loads_within {I : Interpreter} (depth : nat) (s : string) : exc value :=
  match scan_once (S (2 * String.length s)) depth (skip_ws s) with
  | Ok (v, r) =>
      match skip_ws r with
      | EmptyString => Ok v
      | _ => Raise JSONDecodeError
      end
  | Raise e => Raise e
  end.

(** [json.loads(s)], called from the code. *)
Definition loads {I : Interpreter} (s : string) : exc value :=
  loads_within recursion_remaining s.

End Json.

(* ------------------------------------------------------------------ *)
(** ** Operations on values that can fail *)

(** [k in v] for a string [k] *)
Definition contains_key (k : string) (v : value) : exc bool :=
  match v with
  | VDict d => Ok (mem k d)
  | VStr s => Ok (Str.contains k s)
  | VList l => Ok (existsb (fun x => eq_str x k) l)
  | _ => Raise TypeError
  end.

(** [v[k]] for a string [k] *)
Definition subscript (v : value) (k : string) : exc value :=
  match v with
  | VDict d => getitem k d
  | _ => Raise TypeError
  end.

(** [v[k] = x] for a string [k] *)
Definition setitem (v : value) (k : string) (x : value) : exc value :=
  match v with
  | VDict d => Ok (VDict (dict_set k x d))
  | _ => Raise TypeError
  end.

(** [v.get(k)] *)
Definition get_method (v : value) (k : string) : exc value :=
  match v with
  | VDict d => Ok (dict_get k d)
  | _ => Raise AttributeError
  end.

(** [v.get(k, default)] *)
Definition get_method_default (v : value) (k : string) (default : value) : exc value :=
  match v with
  | VDict d => Ok (dict_get_default k default d)
  | _ => Raise AttributeError
  end.

(** [v.lower()] *)
Definition lower_method (v : value) : exc string :=
  match v with
  | VStr s => Ok (Str.lower s)
  | _ => Raise AttributeError
  end.

(** [v.strip()] *)
Definition strip_method (v : value) : exc string :=
  match v with
  | VStr s => Ok (Str.strip s)
  | _ => Raise AttributeError
  end.

(** [v[0]] *)
Definition first_item (v : value) : exc value :=
  match v with
  | VList (x :: _) => Ok x
  | VList [] => Raise IndexError
  | VStr s =>
      match Unicode.decode s with
      | cp :: _ => Ok (VStr (Unicode.encode cp))
      | [] => Raise IndexError
      end
  | VDict _ => Raise KeyError
  | _ => Raise TypeError
  end.

(** [float(z)] for an [int] *)
Definition int_to_float (z : Z) : exc PyFloat.t :=
  let x := PyFloat.of_Z z in
  if PyFloat.is_finite x then Ok x else Raise OverflowError.

(** [v * f] for a float [f]; [bool] is a subclass of [int]. *)
Definition mul_float (v : value) (f : PyFloat.t) : exc PyFloat.t :=
  match v with
  | VInt z => x <- int_to_float z ;; Ok (PyFloat.mul x f)
  | VBool b => x <- int_to_float (if b then 1 else 0) ;; Ok (PyFloat.mul x f)
  | VFloat x => Ok (PyFloat.mul x f)
  | _ => Raise TypeError
  end.

(* ------------------------------------------------------------------ *)
(** ** [backend/llm_utils.py] *)

Module llm_utils.

(** What the call to the inference endpoint comes back with: either
    [requests.post] raises, or there is a response with a status code
    and a body.  The prompt is built from the query and sent along; the
    function reads nothing of it afterwards, so the reply is taken as it
    comes. *)
Inductive reply : Type :=
| Unreachable
| Response (status_code : Z) (text : string).

(** [requests.post(API_URL, headers=HEADERS, json={"inputs": prompt})] *)
Definition post (r : reply) : exc (Z * string) :=
  match r with
  | Unreachable => Raise ConnectionError
  | Response code text => Ok (code, text)
  end.

(** [response.raise_for_status()] *)
Definition raise_for_status (response : Z * string) : exc unit :=
  let code := fst response in
  if (400 <=? code) && (code <? 600) then Raise HTTPError else Ok tt.

(** [response.json()]: the decoder, reached some frames deeper. *)
Definition json {I : Interpreter} (response : Z * string) : exc value :=
  Json.loads_within (recursion_remaining - requests_frames) (snd response).

(** [print(label, s)] for a string [s]: the characters of [s] go to
    [sys.stdout] as they are. *)
Definition print_str {I : Interpreter} (s : string) : exc unit :=
  if Str.printable s then Ok tt else Raise UnicodeEncodeError.

(** [print(label, v)].  A string is written as it is; of any other
    value of the program the [repr] is written, in which the surrogates
    of a string are escaped.  The [repr] of an [int] would raise beyond
    [int_max_str_digits] digits and the [repr] of a list beyond the
    recursion limit, but the values printed here come from the decoder
    or from [int], which have raised by then. *)
Definition print_value {I : Interpreter} (v : value) : exc unit :=
  match v with
  | VStr s => print_str s
  | _ => Ok tt
  end.

Definition REQUIRED : list string := ["attribute"; "operator"; "value"].

(** [all(k in parsed_filter for k in ks)] *)
Fixpoint all_in (ks : list string) (parsed_filter : value) : exc bool :=
  match ks with
  | [] => Ok true
  | k :: ks' =>
      b <- contains_key k parsed_filter ;;
      if b then all_in ks' parsed_filter else Ok false
  end.

(** Lines 80-81: feet to meters. *)
Definition convert_feet (query parsed_filter : value) : exc value :=
  q <- lower_method query ;;
  height <- (if Str.contains "feet" q
             then a <- subscript parsed_filter "attribute" ;;
                  Ok (eq_str a "height")
             else Ok false) ;;
  if height
  then v <- subscript parsed_filter "value" ;;
       x <- mul_float v PyFloat.feet_to_meters ;;
       setitem parsed_filter "value" (VFloat (PyFloat.round2 x))
  else Ok parsed_filter.

(** Lines 84-85: zoning digits to int. *)
Definition convert_zoning {I : Interpreter} (parsed_filter : value) : exc value :=
  a <- get_method parsed_filter "attribute" ;;
  if eq_str a "zoning"
  then v <- subscript parsed_filter "value" ;;
       match v with
       | VStr s =>
           if Str.isdigit s
           then n <- Str.int s ;; setitem parsed_filter "value" (VInt n)
           else Ok parsed_filter
       | _ => Ok parsed_filter
       end
  else Ok parsed_filter.

(** Lines 76-88, for a block that has parsed: [Some f] is [return f],
    [None] is the end of the loop body. *)
Definition accept {I : Interpreter} (query parsed_filter : value)
  : exc (option value) :=
  _ <- print_value parsed_filter ;;
  ok <- all_in REQUIRED parsed_filter ;;
  if ok
  then f1 <- convert_feet query parsed_filter ;;
       f2 <- convert_zoning f1 ;;
       _ <- print_value f2 ;;
       Ok (Some f2)
  else Ok None.

(** The body of the [for] loop with its [try]: a block that does not
    parse goes to the next iteration, every other exception leaves the
    loop. *)
Definition try_match {I : Interpreter} (query : value) (m : string)
  : exc (option value) :=
  try_except
    (parsed_filter <- Json.loads m ;; accept query parsed_filter)
    is_JSONDecodeError
    (fun _ => Ok None).

(** [for match in matches: ...] followed by lines 93-94: a message
    that is a constant, and [return {}]. *)
Fixpoint for_matches {I : Interpreter} (query : value) (matches : list string)
  : exc value :=
  match matches with
  | [] => Ok (VDict [])
  | m :: rest =>
      r <- try_match query m ;;
      match r with
      | Some f => Ok f
      | None => for_matches query rest
      end
  end.

(** Lines 63-69: the value of [generated_text]. *)
Definition generated_text {I : Interpreter} (r : reply) : exc string :=
  response <- post r ;;
  _ <- raise_for_status response ;;
  full_json <- json response ;;
  _ <- print_value full_json ;;
  first <- first_item full_json ;;
  g <- get_method_default first "generated_text" (VStr "") ;;
  strip_method g.

(** The [try] block of [parse_query], lines 63-94. *)
Definition parse_query_body {I : Interpreter} (query : value) (r : reply)
  : exc value :=
  text <- generated_text r ;;
  _ <- print_str text ;;
  for_matches query (Re.findall text).

(** The handler of line 96 prints the exception, whose message holds
    no surrogate as such, and returns [{}]. *)
Definition parse_query {I : Interpreter} (query : value) (r : reply) : exc value :=
  try_except (parse_query_body query r) is_Exception
             (fun _ => Ok (VDict [])).

End llm_utils.

(* ------------------------------------------------------------------ *)
(** ** [backend/app.py] *)

Module app.

Record http_response : Type := { status : Z; body : value }.

(** The module-level state: the dataset loaded at startup. *)
Record state : Type := { building_data : value }.

(** [with open(...) as f: building_data = json.load(f)]; [file] is the
    content of the dataset file, if there is one. *)
Definition startup {I : Interpreter} (file : option string) : exc state :=
  match file with
  | None => Raise FileNotFoundError
  | Some content =>
      d <- Json.loads content ;; Ok {| building_data := d |}
  end.

Definition get_buildings (st : state) : http_response :=
  {| status := 200; body := building_data st |}.

Definition invalid_output : value :=
  VDict [("error", VStr "Invalid LLM output")].

(** [request_json] is [request.json], the decoded body of the POST. *)
Definition query_buildings {I : Interpreter}
           (request_json : value) (r : llm_utils.reply) : exc http_response :=
  user_input <- get_method_default request_json "query" (VStr "") ;;
  llm_response <- llm_utils.parse_query user_input r ;;
  attribute <- get_method llm_response "attribute" ;;
  operator <- get_method llm_response "operator" ;;
  val <- get_method llm_response "value" ;;
  if negb (truthy attribute && truthy operator && is_not_None val)
  then Ok {| status := 400; body := invalid_output |}
  else Ok {| status := 200; body := llm_response |}.

Inductive request : Type :=
| GET_buildings
| POST_query (request_json : value) (r : llm_utils.reply).

(** One request: the response, or the exception that leaves the view,
    and the state afterwards. *)
Definition handle {I : Interpreter} (st : state) (rq : request)
  : exc http_response * state :=
  match rq with
  | GET_buildings => (Ok (get_buildings st), st)
  | POST_query j r => (query_buildings j r, st)
  end.

Fixpoint serve {I : Interpreter} (st : state) (rqs : list request)
  : list (exc http_response) * state :=
  match rqs with
  | [] => ([], st)
  | rq :: rest =>
      let (resp, st1) := handle st rq in
      let (resps, st2) := serve st1 rest in
      (resp :: resps, st2)
  end.

End app.

(* ------------------------------------------------------------------ *)
(** ** Writing JSON texts

    [dq s] is [s] with every apostrophe turned into a double quote, so
    that the texts of the examples read as the JSON they are. *)

Fixpoint dq (s : string) : string :=
  match s with
  | EmptyString => EmptyString
  | String c s' => String (if Ascii.eqb c "'" then "034"%char else c) (dq s')
  end.

(** The empty result, [{}]. *)
Definition EmptyResult : value := VDict [].

(* ------------------------------------------------------------------ *)
(** ** The notions the specification speaks of *)

(** Step 4 of the specification: the candidate blocks of a text.  A text
    in which no [{] is followed by a [}] has none; otherwise the first
    block starts at the first [{], runs to the next [}], and the
    remaining blocks are those of the text after it. *)
Definition no_brace_pair (s : string) : Prop :=
  forall u v w : string,
    s <> (u ++ String Re.open_brace (v ++ String Re.close_brace w))%string.

Inductive candidate_blocks : string -> list string -> Prop :=
| blocks_nil : forall s, no_brace_pair s -> candidate_blocks s []
| blocks_cons : forall gap body rest ms,
    Re.free_of Re.open_brace gap = true ->
    Re.free_of Re.close_brace body = true ->
    candidate_blocks rest ms ->
    candidate_blocks
      (gap ++ String Re.open_brace (body ++ String Re.close_brace rest))%string
      (String Re.open_brace (body ++ String Re.close_brace EmptyString)%string :: ms).

(** [r] is what is left of [s] after something was read. *)
Definition shorter (r s : string) : Prop :=
  (String.length r < String.length s)%nat.

(** A block as the engine returns them: a [{], a body without [}], and
    a [}]. *)
Definition block_shape (m : string) : Prop :=
  exists body,
    m = String Re.open_brace (body ++ String Re.close_brace EmptyString)%string /\
    Re.free_of Re.close_brace body = true.





(** How many times [c] occurs in [s]. *)
Fixpoint occ (c : ascii) (s : string) : nat :=
  match s with
  | EmptyString => O
  | String x s' => ((if Ascii.eqb x c then 1 else 0) + occ c s')%nat
  end.

(** How many objects a value holds, itself included. *)
Fixpoint dicts (v : value) : nat :=
  match v with
  | VList l => list_sum (map dicts l)
  | VDict d => S (list_sum (map (fun kv => dicts (snd kv)) d))
  | _ => O
  end.

Definition lcount (l : list value) : nat := list_sum (map dicts l).
Definition dcount (d : dict) : nat := list_sum (map (fun kv => dicts (snd kv)) d).

(** A string made of the ten ASCII digits only. *)
Fixpoint ascii_digits (s : string) : bool :=
  match s with
  | EmptyString => true
  | String c s' => Json.is_digit c && ascii_digits s'
  end.

(** All three required keys are present. *)
Definition has_required (d : dict) : bool :=
  mem "attribute" d && mem "operator" d && mem "value" d.

(** A block the loop passes over: the decoder rejects it with
    [JSONDecodeError], or it parses to an object that lacks a required
    key. *)
Definition skipped {I : Interpreter} (m : string) : bool :=
  match Json.loads m with
  | Raise JSONDecodeError => true
  | Ok (VDict d) => negb (has_required d)
  | _ => false
  end.

(** The query contains "feet", whatever the case of its letters. *)
Definition mentions_feet (query : string) : bool :=
  Str.contains "feet" (Str.lower query).

(** A number in Python's sense: an [int], a [bool] or a [float]. *)
Definition is_number (v : value) : bool :=
  match v with
  | VInt _ | VBool _ | VFloat _ => true
  | _ => false
  end.

(** The two normalizations applied to an accepted block. *)
Definition normalize {I : Interpreter} (query : value) (d : dict) : exc value :=
  f1 <- llm_utils.convert_feet query (VDict d) ;;
  llm_utils.convert_zoning f1.

(** What [parse_query] makes of an accepted block: the normalized block,
    or the empty result when normalizing raises. *)
Definition settle {I : Interpreter} (query : value) (d : dict) : value :=
  match normalize query d with
  | Ok f => f
  | Raise _ => EmptyResult
  end.

(** The ways a call can fail, as the specification lists them. *)
Inductive failure {I : Interpreter} : llm_utils.reply -> Prop :=
| transport_failure :
    failure llm_utils.Unreachable
| non_success_status : forall code text,
    400 <= code < 600 ->
    failure (llm_utils.Response code text)
| body_not_json : forall code text e,
    llm_utils.json (code, text) = Raise e ->
    failure (llm_utils.Response code text)
| malformed_shape : forall code text full_json e,
    llm_utils.json (code, text) = Ok full_json ->
    (first <- first_item full_json ;;
     g <- get_method_default first "generated_text" (VStr "") ;;
     strip_method g) = Raise e ->
    failure (llm_utils.Response code text)
| missing_generated_text : forall code text full_json d,
    llm_utils.json (code, text) = Ok full_json ->
    first_item full_json = Ok (VDict d) ->
    lookup "generated_text" d = None ->
    failure (llm_utils.Response code text)
| no_candidate : forall r text,
    llm_utils.generated_text r = Ok text ->
    forallb skipped (Re.findall text) = true ->
    failure r.

(* ------------------------------------------------------------------ *)
(** ** Example data *)

Module Examples.

Definition nl : string := String "010" EmptyString.

(** [text] as it stands between the quotes of a JSON string. *)
Fixpoint escape (text : string) : string :=
  match text with
  | EmptyString => EmptyString
  | String c t =>
      if Ascii.eqb c "034" || Ascii.eqb c "\" then String "\" (String c (escape t))
      else if Ascii.eqb c "010" then String "\" (String "n" (escape t))
      else String c (escape t)
  end.

(** The body of a successful reply of the inference endpoint: an array
    whose first element carries [text] as its generated text. *)
Definition body (text : string) : string :=
  (dq "[{'generated_text': '" ++ escape text ++ dq "'}]")%string.

Definition reply (text : string) : llm_utils.reply :=
  llm_utils.Response 200 (body text).

Definition height_100 : string :=
  dq "{'attribute': 'height', 'operator': '>', 'value': 100}".

Definition height_100_str : string :=
  dq "{'attribute': 'height', 'operator': '>', 'value': '100'}".


Definition area_null : string :=
  dq "{'attribute': 'area', 'operator': '>', 'value': null}".

Definition area_7 : string :=
  dq "{'attribute': 'area', 'operator': '>', 'value': 7}".


Definition area_with_unit : string :=
  dq "{'attribute': 'area', 'operator': '>', 'value': 500, 'unit': 'm2'}".

Definition no_operator : string :=
  dq "{'attribute': 'area', 'value': 7}".

Definition not_json : string := "{the filter}".

Definition zoning_5 : string :=
  dq "{'attribute': 'zoning', 'operator': '==', 'value': '5'}".

Definition zoning_rcg : string :=
  dq "{'attribute': 'zoning', 'operator': '==', 'value': 'RC-G'}".

(** The value is the one-character string SUPERSCRIPT TWO, written
    with its JSON escape. *)
Definition zoning_superscript : string :=
  dq "{'attribute': 'zoning', 'operator': '==', 'value': '\u00b2'}".


Fixpoint nines (n : nat) : string :=
  match n with
  | O => EmptyString
  | S n' => String "9" (nines n')
  end.

(** A zoning code written with [n] digits. *)
Definition zoning_nines (n : nat) : string :=
  (dq "{'attribute': 'zoning', 'operator': '==', 'value': '" ++ nines n
   ++ dq "'}")%string.


Definition empty_attribute : string :=
  dq "{'attribute': '', 'operator': '>', 'value': 1}".

(** A reply whose body holds [escaped] between the quotes of the
    generated text, as it is. *)
Definition reply_escaped (escaped : string) : llm_utils.reply :=
  llm_utils.Response
    200 (dq "[{'generated_text': '" ++ escaped ++ dq "'}]")%string.

(** A lone surrogate, written with its JSON escape, and a filter. *)
Definition surrogate_then_area : string :=
  ("\ud800 " ++ escape area_7)%string.

(** The float [30.48]. *)
Definition f30_48 : PyFloat.t := Eval vm_compute in PyFloat.of_decimal false 3048 (-2).

Definition filter (a op : string) (v : value) : value :=
  VDict [("attribute", VStr a); ("operator", VStr op); ("value", v)].

(** The interpreter of the examples: the digit limit Python starts
    with, a standard output that refuses every surrogate, and room for
    994 nested containers, which is what the recursion limit of 1000
    leaves when [parse_query] is called from the top of a script; under
    a server it is less. *)
Definition cpython : Interpreter :=
  {| int_max_str_digits := 4300;
     recursion_remaining := 994;
     requests_frames := 1;
     stdout_surrogate := fun _ => false |}.

End Examples.

(* ================================================================== *)
(** * Properties *)

Section Properties.

Context {interp : Interpreter}.

(** ** Strings *)

Lemma append_assoc (a b c : string) : ((a ++ b) ++ c = a ++ (b ++ c))%string.
Proof. induction a as [|x a IH]; simpl; [reflexivity | now rewrite IH]. Qed.

Lemma append_nil_r (a : string) : (a ++ EmptyString)%string = a.
Proof. induction a as [|x a IH]; simpl; [reflexivity | now rewrite IH]. Qed.

Lemma free_of_app c a b :
  Re.free_of c (a ++ b) = Re.free_of c a && Re.free_of c b.
Proof.
  induction a as [|x a IH]; simpl; [reflexivity|].
  rewrite IH. now rewrite andb_assoc.
Qed.

Lemma free_of_mid c a b : Re.free_of c (a ++ String c b) = false.
Proof.
  rewrite free_of_app. simpl. rewrite Ascii.eqb_refl. simpl.
  apply andb_false_r.
Qed.

(** A string either avoids [c] or splits at its first [c]. *)
Lemma first_occurrence c s :
  Re.free_of c s = true \/
  exists a b, s = (a ++ String c b)%string /\ Re.free_of c a = true.
Proof.
  induction s as [|x s IH]; simpl; [now left|].
  destruct (Ascii.eqb_spec x c) as [->|Hx]; simpl.
  - right. exists EmptyString, s. now split.
  - destruct IH as [IH|(a & b & -> & Ha)]; [now left|].
    right. exists (String x a), b. split; [reflexivity|].
    simpl. destruct (Ascii.eqb_spec x c); [contradiction|exact Ha].
Qed.

(** ** The scan *)

Lemma scan_inside_free b s :
  Re.free_of Re.close_brace s = true -> Re.scan (Some b) s = [].
Proof.
  revert b. induction s as [|x s IH]; intros b H; simpl in *; [reflexivity|].
  apply andb_true_iff in H as [Hx Hs].
  destruct (Ascii.eqb x Re.close_brace); [discriminate|]. now apply IH.
Qed.

Lemma scan_inside_close b body rest :
  Re.free_of Re.close_brace body = true ->
  Re.scan (Some b) (body ++ String Re.close_brace rest) =
  (b ++ body ++ String Re.close_brace EmptyString)%string :: Re.scan None rest.
Proof.
  revert b. induction body as [|x body IH]; intros b H; simpl in *.
  - reflexivity.
  - apply andb_true_iff in H as [Hx Hs].
    destruct (Ascii.eqb x Re.close_brace); [discriminate|].
    rewrite IH by exact Hs. now rewrite append_assoc.
Qed.

Lemma scan_gap gap s :
  Re.free_of Re.open_brace gap = true ->
  Re.scan None (gap ++ s) = Re.scan None s.
Proof.
  induction gap as [|x gap IH]; intros H; simpl in *; [reflexivity|].
  apply andb_true_iff in H as [Hx Hs].
  destruct (Ascii.eqb x Re.open_brace); [discriminate|]. now apply IH.
Qed.

Lemma scan_inside_inv b s m ms :
  Re.scan (Some b) s = m :: ms ->
  exists body rest,
    s = (body ++ String Re.close_brace rest)%string /\
    Re.free_of Re.close_brace body = true /\
    m = (b ++ body ++ String Re.close_brace EmptyString)%string /\
    ms = Re.scan None rest.
Proof.
  revert b. induction s as [|x s IH]; intros b H; simpl in H; [discriminate|].
  destruct (Ascii.eqb_spec x Re.close_brace) as [->|Hx].
  - inversion H; subst. exists EmptyString, s. now repeat split.
  - apply IH in H as (body & rest & -> & Hf & -> & ->).
    exists (String x body), rest. repeat split.
    + simpl. destruct (Ascii.eqb_spec x Re.close_brace); [contradiction|exact Hf].
    + now rewrite append_assoc.
Qed.

Lemma scan_outside_inv s m ms :
  Re.scan None s = m :: ms ->
  exists gap body rest,
    s = (gap ++ String Re.open_brace (body ++ String Re.close_brace rest))%string /\
    Re.free_of Re.open_brace gap = true /\
    Re.free_of Re.close_brace body = true /\
    m = String Re.open_brace (body ++ String Re.close_brace EmptyString)%string /\
    ms = Re.scan None rest.
Proof.
  induction s as [|x s IH]; intros H; simpl in H; [discriminate|].
  destruct (Ascii.eqb_spec x Re.open_brace) as [->|Hx].
  - apply scan_inside_inv in H as (body & rest & -> & Hf & -> & ->).
    exists EmptyString, body, rest. now repeat split.
  - apply IH in H as (gap & body & rest & -> & Hg & Hb & -> & ->).
    exists (String x gap), body, rest. repeat split; try assumption.
    simpl. destruct (Ascii.eqb_spec x Re.open_brace); [contradiction|exact Hg].
Qed.

(** The engine finds nothing exactly when no [{] is followed by a [}]. *)
Lemma no_brace_pair_cons c s :
  no_brace_pair (String c s) <->
  (if Ascii.eqb c Re.open_brace
   then Re.free_of Re.close_brace s = true
   else no_brace_pair s).
Proof.
  split.
  - intros H. destruct (Ascii.eqb_spec c Re.open_brace) as [->|Hc].
    + destruct (first_occurrence Re.close_brace s) as [Hf|(a & b & -> & _)];
        [exact Hf|].
      exfalso. apply (H EmptyString a b). reflexivity.
    + intros u v w ->. apply (H (String c u) v w). reflexivity.
  - intros H u v w E. destruct u as [|x u]; simpl in E.
    + inversion E; subst. rewrite Ascii.eqb_refl in H.
      now rewrite free_of_mid in H.
    + inversion E; subst.
      destruct (Ascii.eqb_spec x Re.open_brace) as [->|Hx].
      * rewrite free_of_app in H. simpl in H.
        rewrite free_of_mid in H.
        rewrite ?andb_false_r in H. discriminate.
      * now apply (H u v w).
Qed.

Lemma findall_nil_iff s : Re.findall s = [] <-> no_brace_pair s.
Proof.
  unfold Re.findall. induction s as [|c s IH].
  - split; [|reflexivity]. intros _ u v w E.
    destruct u; discriminate.
  - rewrite no_brace_pair_cons. simpl.
    destruct (Ascii.eqb c Re.open_brace).
    + split.
      * intros H.
        destruct (first_occurrence Re.close_brace s) as [Hf|(a & b & -> & Ha)];
          [exact Hf|].
        rewrite scan_inside_close in H by exact Ha. discriminate.
      * apply scan_inside_free.
    + exact IH.
Qed.

Lemma findall_complete ms : forall s, Re.findall s = ms -> candidate_blocks s ms.
Proof.
  induction ms as [|m ms IH]; intros s H.
  - apply blocks_nil. now apply findall_nil_iff.
  - apply scan_outside_inv in H as (gap & body & rest & -> & Hg & Hb & -> & ->).
    apply blocks_cons; try assumption. now apply IH.
Qed.

Lemma findall_sound s ms : candidate_blocks s ms -> Re.findall s = ms.
Proof.
  induction 1 as [s H|gap body rest ms Hg Hb _ IH].
  - now apply findall_nil_iff.
  - unfold Re.findall in *. rewrite scan_gap by exact Hg. simpl.
    rewrite scan_inside_close by exact Hb. simpl. now rewrite IH.
Qed.

(** Stripping the generated text leaves its candidate blocks as they
    are: blanks are no braces. *)
Lemma space_not_brace c :
  Str.is_space c = true ->
  Ascii.eqb c Re.open_brace = false /\ Ascii.eqb c Re.close_brace = false.
Proof.
  intros H. split.
  - destruct (Ascii.eqb_spec c Re.open_brace) as [->|]; [discriminate H|reflexivity].
  - destruct (Ascii.eqb_spec c Re.close_brace) as [->|]; [discriminate H|reflexivity].
Qed.

Lemma scan_space cur c s :
  Str.is_space c = true ->
  Re.scan cur (String c s) =
  Re.scan (option_map (fun b => (b ++ String c EmptyString)%string) cur) s.
Proof.
  intros H. destruct (space_not_brace c H) as [Ho Hc].
  destruct cur; simpl; [now rewrite Hc | now rewrite Ho].
Qed.

Lemma scan_lstrip s : Re.scan None (Str.lstrip s) = Re.scan None s.
Proof.
  induction s as [|c s IH]; [reflexivity|].
  cbn [Str.lstrip]. destruct (Str.is_space c) eqn:H; [|reflexivity].
  now rewrite scan_space.
Qed.

Lemma scan_rstrip s : forall cur, Re.scan cur (Str.rstrip s) = Re.scan cur s.
Proof.
  induction s as [|c s IH]; intros cur; [reflexivity|].
  cbn [Str.rstrip]. destruct (Str.rstrip s) as [|x t] eqn:E.
  - assert (Hs : forall cur', Re.scan cur' s = []).
    { intros cur'. now rewrite <- IH. }
    destruct (Str.is_space c) eqn:H.
    + rewrite scan_space by exact H. now rewrite Hs.
    + destruct cur as [b|]; simpl;
        [destruct (Ascii.eqb c Re.close_brace)
        |destruct (Ascii.eqb c Re.open_brace)]; now rewrite ?Hs.
  - remember (String x t) as u eqn:Eu.
    destruct cur as [b|]; simpl;
      [destruct (Ascii.eqb c Re.close_brace)
      |destruct (Ascii.eqb c Re.open_brace)]; now rewrite IH.
Qed.

Lemma findall_strip s : Re.findall (Str.strip s) = Re.findall s.
Proof.
  unfold Re.findall, Str.strip. now rewrite scan_rstrip, scan_lstrip.
Qed.

(** Every block the engine returns starts with a [{]. *)
Lemma findall_open ms : forall s,
  Re.findall s = ms ->
  Forall (fun m => exists b, m = String Re.open_brace b) ms.
Proof.
  induction ms as [|m ms IH]; intros s H; constructor.
  - apply scan_outside_inv in H as (gap & body & rest & _ & _ & _ & -> & _).
    eauto.
  - apply scan_outside_inv in H as (gap & body & rest & _ & _ & _ & _ & ->).
    now apply (IH rest).
Qed.

(** ** The decoder *)

Ltac break_match :=
  match goal with
  | H : context [match ?x with _ => _ end] |- _ => destruct x eqn:?
  | |- context [match ?x with _ => _ end] => destruct x eqn:?
  end.

Ltac invert_results :=
  repeat match goal with
         | H : Raise _ = Raise _ |- _ => inversion H; subst; clear H
         | H : Ok _ = Ok _ |- _ => inversion H; subst; clear H
         | H : Ok _ = Raise _ |- _ => discriminate H
         | H : Raise _ = Ok _ |- _ => discriminate H
         end.

Lemma skip_ws_length s : (String.length (Json.skip_ws s) <= String.length s)%nat.
Proof.
  induction s as [|c s IH]; simpl; [lia|].
  destruct (Json.is_ws c); simpl; lia.
Qed.

Lemma expect_length c s r :
  Json.expect c s = Some r -> String.length s = S (String.length r).
Proof.
  destruct s as [|x s]; simpl; [discriminate|].
  destruct (Ascii.eqb x c); [|discriminate]. now intros [= ->].
Qed.

Lemma strip_prefix_length p : forall s r,
  Json.strip_prefix p s = Some r ->
  String.length s = (String.length p + String.length r)%nat.
Proof.
  induction p as [|a p IH]; intros s r; simpl.
  - now intros [= ->].
  - destruct s as [|b s]; [discriminate|].
    destruct (Ascii.eqb a b); [|discriminate].
    intros H. apply IH in H. simpl. lia.
Qed.

Lemma span_digits_length s : forall ds r,
  Json.span_digits s = (ds, r) ->
  String.length s = (String.length ds + String.length r)%nat.
Proof.
  induction s as [|c s IH]; intros ds r; simpl.
  - now intros [= <- <-].
  - destruct (Json.is_digit c).
    + destruct (Json.span_digits s) as [ds' r'] eqn:E.
      intros [= <- <-]. specialize (IH _ _ eq_refl). simpl. lia.
    + now intros [= <- <-].
Qed.

Lemma int_part_length s i r :
  Json.int_part s = Some (i, r) -> (String.length r < String.length s)%nat.
Proof.
  unfold Json.int_part. destruct s as [|c s]; [discriminate|].
  destruct (Ascii.eqb c "0").
  - intros [= <- <-]. simpl. lia.
  - destruct (Json.is_digit c) eqn:D; [|discriminate].
    simpl. rewrite D. destruct (Json.span_digits s) as [ds r'] eqn:E.
    intros [= <- <-]. apply span_digits_length in E. simpl. lia.
Qed.

Lemma frac_part_length s f r :
  Json.frac_part s = Some (f, r) -> (String.length r < String.length s)%nat.
Proof.
  unfold Json.frac_part. destruct (Json.expect "." s) as [s'|] eqn:E; [|discriminate].
  apply expect_length in E. destruct s' as [|d t]; [discriminate|].
  destruct (Json.is_digit d); [|discriminate].
  destruct (Json.span_digits (String d t)) as [ds r'] eqn:S.
  intros [= <- <-]. apply span_digits_length in S. lia.
Qed.

Lemma exp_part_length s e r :
  Json.exp_part s = Some (e, r) -> (String.length r < String.length s)%nat.
Proof.
  unfold Json.exp_part. destruct s as [|c s]; [discriminate|].
  destruct (Ascii.eqb c "e" || Ascii.eqb c "E"); [|discriminate].
  destruct (Json.expect "-" s) as [t|] eqn:E1;
    [|destruct (Json.expect "+" s) as [t|] eqn:E2].
  all: match goal with
       | |- context [Json.span_digits ?u] =>
           destruct (Json.span_digits u) as [ds r'] eqn:S
       end;
       destruct ds; [discriminate|]; intros [= <- <-];
       apply span_digits_length in S;
       try apply expect_length in E1; try apply expect_length in E2;
       simpl in *; lia.
Qed.

Lemma match_number_length s v r :
  Json.match_number s = Some (v, r) -> (String.length r < String.length s)%nat.
Proof.
  unfold Json.match_number.
  destruct (Json.expect "-" s) as [t|] eqn:E0;
    [apply expect_length in E0|];
    (match goal with
     | |- context [Json.int_part ?u] =>
         destruct (Json.int_part u) as [[i s1]|] eqn:I; [|discriminate]
     end);
    apply int_part_length in I;
    (destruct (Json.frac_part s1) as [[f s2]|] eqn:F;
     [apply frac_part_length in F;
      destruct (Json.exp_part s2) as [[e s3]|] eqn:X
     |destruct (Json.exp_part s1) as [[e s3]|] eqn:X]);
    try apply exp_part_length in X; simpl; intros [= <- <-]; lia.
Qed.

Lemma scan_items_length s : forall its r,
  Json.scan_items s = Some (its, r) -> (String.length r < String.length s)%nat.
Proof.
  induction s as [s IH] using (well_founded_induction
                                 (Wf_nat.well_founded_ltof _ String.length)).
  unfold Wf_nat.ltof in IH.
  intros its r. destruct s as [|c s1]; simpl; [discriminate|].
  destruct (Ascii.eqb c "034"); [intros [= <- <-]; lia|].
  destruct (Ascii.eqb c "\").
  - destruct s1 as [|e s2]; [discriminate|].
    destruct (Ascii.eqb e "u").
    + destruct s2 as [|h1 [|h2 [|h3 [|h4 s3]]]]; try discriminate.
      destruct (Json.hex4 h1 h2 h3 h4); [|discriminate].
      destruct (Json.scan_items s3) as [[its' r']|] eqn:E; [|discriminate].
      intros [= <- <-]. apply IH in E; simpl in *; lia.
    + destruct (Json.simple_escape e); [|discriminate].
      destruct (Json.scan_items s2) as [[its' r']|] eqn:E; [|discriminate].
      intros [= <- <-]. apply IH in E; simpl in *; lia.
  - destruct (Z.leb (Unicode.byte c) 31); [discriminate|].
    destruct (Json.scan_items s1) as [[its' r']|] eqn:E; [|discriminate].
    intros [= <- <-]. apply IH in E; simpl in *; lia.
Qed.

Lemma scanstring_length s x r :
  Json.scanstring s = Some (x, r) -> (String.length r < String.length s)%nat.
Proof.
  unfold Json.scanstring.
  destruct (Json.scan_items s) as [[its r']|] eqn:E; [|discriminate].
  intros [= <- <-]. now apply scan_items_length in E.
Qed.

Lemma number_length s v r :
  Json.number s = Ok (v, r) -> (String.length r < String.length s)%nat.
Proof.
  unfold Json.number.
  destruct (Json.match_number s) as [[w t]|] eqn:E; [|discriminate].
  apply match_number_length in E.
  destruct w; try (intros [= <- <-]; exact E).
  destruct (digits_allowed _); [|discriminate]. intros [= <- <-]. exact E.
Qed.

Ltac length_facts :=
  repeat match goal with
         | H : Json.expect _ _ = Some _ |- _ => apply expect_length in H
         | H : Json.number _ = Ok _ |- _ => apply number_length in H
         | H : Json.strip_prefix _ _ = Some _ |- _ =>
             apply strip_prefix_length in H; simpl in H
         | H : Json.scanstring _ = Some _ |- _ => apply scanstring_length in H
         | H : Json.match_number _ = Some _ |- _ => apply match_number_length in H
         end;
  repeat match goal with
         | |- context [Json.skip_ws ?s] =>
             lazymatch goal with
             | _ : (String.length (Json.skip_ws s) <= String.length s)%nat |- _ => fail
             | _ => pose proof (skip_ws_length s)
             end
         | _ : context [Json.skip_ws ?s] |- _ =>
             lazymatch goal with
             | _ : (String.length (Json.skip_ws s) <= String.length s)%nat |- _ => fail
             | _ => pose proof (skip_ws_length s)
             end
         end.

Lemma scan_progress n :
  (forall k s v r, Json.scan_once n k s = Ok (v, r) -> shorter r s) /\
  (forall k acc s v r, Json.members n k acc s = Ok (v, r) -> shorter r s) /\
  (forall k acc s v r, Json.elements n k acc s = Ok (v, r) -> shorter r s).
Proof.
  unfold shorter.
  induction n as [|n (IHs & IHm & IHe)];
    [repeat split; intros; discriminate|].
  repeat split.
  - intros k s v r H. destruct s as [|c s']; [discriminate|].
    cbn [Json.scan_once] in H.
    repeat (break_match; try discriminate); invert_results;
      repeat match goal with
             | H : Some _ = Some _ |- _ => inversion H; subst; clear H
             | H : Json.members _ _ _ _ = Ok _ |- _ => apply IHm in H
             | H : Json.elements _ _ _ _ = Ok _ |- _ => apply IHe in H
             end;
      length_facts; simpl in *; lia.
  - intros k acc s v r H. cbn [Json.members] in H.
    repeat (break_match; try discriminate); invert_results;
      repeat match goal with
             | H : Some _ = Some _ |- _ => inversion H; subst; clear H
             | H : Json.scan_once _ _ _ = Ok _ |- _ => apply IHs in H
             | H : Json.members _ _ _ _ = Ok _ |- _ => apply IHm in H
             end;
      length_facts; simpl in *; lia.
  - intros k acc s v r H. cbn [Json.elements] in H.
    repeat (break_match; try discriminate); invert_results;
      repeat match goal with
             | H : Some _ = Some _ |- _ => inversion H; subst; clear H
             | H : Json.scan_once _ _ _ = Ok _ |- _ => apply IHs in H
             | H : Json.elements _ _ _ _ = Ok _ |- _ => apply IHe in H
             end;
      length_facts; simpl in *; lia.
Qed.

Ltac recursive_call IHs IHm IHe n :=
  repeat match goal with
         | E : _ = Ok ?p |- _ => is_var p; destruct p
         end;
  match goal with
  | E : Json.scan_once _ ?k ?s = ?x |- _ =>
      rewrite (IHs k s x E ltac:(congruence) n) by (length_facts; simpl in *; lia);
      first [apply (proj1 (scan_progress _)) in E; unfold shorter in E | clear E]
  | E : Json.members _ ?k ?a ?s = ?x |- _ =>
      rewrite (IHm k a s x E ltac:(congruence) n) by (length_facts; simpl in *; lia);
      first [apply (proj1 (proj2 (scan_progress _))) in E; unfold shorter in E
            | clear E]
  | E : Json.elements _ ?k ?a ?s = ?x |- _ =>
      rewrite (IHe k a s x E ltac:(congruence) n) by (length_facts; simpl in *; lia);
      first [apply (proj2 (proj2 (scan_progress _))) in E; unfold shorter in E
            | clear E]
  end.

(** Fuel beyond twice the length of the text changes nothing: whatever
    the scanner comes to, other than giving up, it comes to with any
    such fuel. *)
Lemma scan_enough m :
  (forall k s x, Json.scan_once m k s = x -> x <> Raise JSONDecodeError ->
     forall n, (2 * String.length s < n)%nat -> Json.scan_once n k s = x) /\
  (forall k acc s x, Json.members m k acc s = x -> x <> Raise JSONDecodeError ->
     forall n, (2 * String.length s < n)%nat -> Json.members n k acc s = x) /\
  (forall k acc s x, Json.elements m k acc s = x -> x <> Raise JSONDecodeError ->
     forall n, (2 * String.length s + 1 < n)%nat ->
               Json.elements n k acc s = x).
Proof.
  induction m as [|m (IHs & IHm & IHe)];
    [repeat split; intros; simpl in *; congruence|].
  repeat split.
  - intros k s x H Hx n Hn. destruct n as [|n]; [lia|].
    destruct s as [|c s']; [simpl in *; congruence|].
    cbn [Json.scan_once] in H |- *.
    repeat (break_match; try congruence;
            try recursive_call IHs IHm IHe n);
      try exact H; try reflexivity;
      (first [apply IHs | apply IHm | apply IHe];
       [exact H | exact Hx | length_facts; simpl in *; lia]).
  - intros k acc s x H Hx n Hn. destruct n as [|n]; [lia|].
    cbn [Json.members] in H |- *.
    repeat (break_match; try congruence;
            try recursive_call IHs IHm IHe n);
      try exact H; try reflexivity;
      (first [apply IHs | apply IHm | apply IHe];
       [exact H | exact Hx | length_facts; simpl in *; lia]).
  - intros k acc s x H Hx n Hn. destruct n as [|n]; [lia|].
    cbn [Json.elements] in H |- *.
    repeat (break_match; try congruence;
            try recursive_call IHs IHm IHe n);
      try exact H; try reflexivity;
      (first [apply IHs | apply IHm | apply IHe];
       [exact H | exact Hx | length_facts; simpl in *; lia]).
Qed.

Lemma scan_once_fuel k s n n' :
  (2 * String.length s < n)%nat ->
  (2 * String.length s < n')%nat ->
  Json.scan_once n k s = Json.scan_once n' k s.
Proof.
  intros Hn Hn'.
  assert (D : forall x : exc (value * string),
             x = Raise JSONDecodeError \/ x <> Raise JSONDecodeError).
  { intros [x|e]; [right; discriminate|].
    destruct e; try (right; discriminate). now left. }
  destruct (D (Json.scan_once n k s)) as [E|E].
  - destruct (D (Json.scan_once n' k s)) as [F|F]; [congruence|].
    exact (proj1 (scan_enough n') k s _ eq_refl F n Hn).
  - symmetry. exact (proj1 (scan_enough n) k s _ eq_refl E n' Hn').
Qed.

(** The fuel the decoder gives is enough: more fuel gives the same
    result. *)
Lemma loads_fuel k s n :
  (2 * String.length s < n)%nat ->
  Json.scan_once n k (Json.skip_ws s) =
  Json.scan_once (S (2 * String.length s)) k (Json.skip_ws s).
Proof.
  intros Hn. pose proof (skip_ws_length s) as L.
  apply scan_once_fuel; lia.
Qed.

Lemma members_dict n : forall k acc s v r,
  Json.members n k acc s = Ok (v, r) -> exists d, v = VDict d.
Proof.
  induction n as [|n IH]; intros k acc s v r H; simpl in H; [discriminate|].
  repeat (break_match; try discriminate).
  - inversion H; subst. eauto.
  - eapply IH; eassumption.
Qed.

(** A text that starts with [{] decodes to a [dict], if it decodes. *)
Lemma loads_brace s v :
  Json.loads (String Re.open_brace s) = Ok v -> exists d, v = VDict d.
Proof.
  unfold Json.loads, Json.loads_within. cbn [Json.skip_ws].
  cbv [Json.is_ws Re.open_brace]. simpl. intros H.
  repeat (break_match; try discriminate); invert_results;
    match goal with
    | E : Some _ = Some _ |- _ => inversion E; subst; eauto
    | E : Json.members _ _ _ _ = Ok _ |- _ => eapply members_dict; eassumption
    | _ => eauto
    end.
Qed.

(** ** Dictionaries *)

Lemma lookup_dict_set_same k v d : lookup k (dict_set k v d) = Some v.
Proof.
  induction d as [|[k' v'] d IH]; simpl.
  - now rewrite String.eqb_refl.
  - destruct (String.eqb_spec k k') as [->|Hk]; simpl.
    + now rewrite String.eqb_refl.
    + destruct (String.eqb_spec k k'); [contradiction|exact IH].
Qed.

Lemma lookup_dict_set_other k k' v d :
  k <> k' -> lookup k' (dict_set k v d) = lookup k' d.
Proof.
  intros Hk. induction d as [|[k0 v0] d IH]; simpl.
  - destruct (String.eqb_spec k' k); [congruence|reflexivity].
  - destruct (String.eqb_spec k k0) as [->|H0]; simpl.
    + destruct (String.eqb_spec k' k0); [congruence|reflexivity].
    + now rewrite IH.
Qed.

Lemma mem_dict_set k k' v d :
  mem k' (dict_set k v d) = String.eqb k' k || mem k' d.
Proof.
  unfold mem. destruct (String.eqb_spec k' k) as [->|Hk]; simpl.
  - now rewrite lookup_dict_set_same.
  - rewrite lookup_dict_set_other by congruence. reflexivity.
Qed.

Lemma has_required_dict_set v d :
  has_required d = true -> has_required (dict_set "value" v d) = true.
Proof.
  unfold has_required. rewrite !mem_dict_set. simpl.
  intros H. apply andb_true_iff in H as [H _]. now rewrite H.
Qed.

Lemma keys_dict_set k x d : mem k d = true -> keys (dict_set k x d) = keys d.
Proof.
  unfold mem, keys. induction d as [|[k' v] d IH]; cbn [lookup dict_set map fst].
  - discriminate.
  - destruct (String.eqb k k'); cbn [map fst]; [reflexivity|].
    intros H. now rewrite IH.
Qed.

Lemma mem_lookup k d : mem k d = true -> exists v, lookup k d = Some v.
Proof. unfold mem. destruct (lookup k d); [eauto|discriminate]. Qed.

(** ** The loop over the candidate blocks *)

Lemma all_in_dict d :
  llm_utils.all_in llm_utils.REQUIRED (VDict d) = Ok (has_required d).
Proof.
  unfold has_required. simpl.
  destruct (mem "attribute" d), (mem "operator" d), (mem "value" d);
    reflexivity.
Qed.

(** What an accepted block can become: itself, or itself with a new
    [value]. *)
Lemma convert_feet_ok query d f :
  llm_utils.convert_feet query (VDict d) = Ok f ->
  f = VDict d \/ exists x, f = VDict (dict_set "value" x d).
Proof.
  unfold llm_utils.convert_feet, setitem, bind. intros H.
  repeat (break_match; try discriminate); invert_results; eauto.
Qed.

Lemma convert_zoning_ok d f :
  llm_utils.convert_zoning (VDict d) = Ok f ->
  f = VDict d \/ exists x, f = VDict (dict_set "value" x d).
Proof.
  unfold llm_utils.convert_zoning, setitem, bind. intros H.
  repeat (break_match; try discriminate); invert_results; eauto.
Qed.

Lemma print_value_dict d : llm_utils.print_value (VDict d) = Ok tt.
Proof. reflexivity. Qed.

Lemma accept_dict query d :
  llm_utils.accept query (VDict d) =
  if has_required d
  then f <- normalize query d ;; Ok (Some f)
  else Ok None.
Proof.
  unfold llm_utils.accept, normalize. rewrite print_value_dict, all_in_dict.
  simpl. destruct (has_required d); [|reflexivity].
  destruct (llm_utils.convert_feet query (VDict d)) as [f1|] eqn:E1;
    [|reflexivity].
  simpl. destruct (llm_utils.convert_zoning f1) as [f2|] eqn:E2; [|reflexivity].
  simpl. apply convert_feet_ok in E1 as [->|[x ->]];
    apply convert_zoning_ok in E2 as [->|[y ->]]; reflexivity.
Qed.

Lemma convert_feet_raise query f e :
  llm_utils.convert_feet query f = Raise e -> is_JSONDecodeError e = false.
Proof.
  unfold llm_utils.convert_feet, lower_method, subscript, getitem, setitem,
    mul_float, int_to_float, bind.
  intros H. repeat (break_match; try discriminate); invert_results;
    reflexivity.
Qed.

Lemma convert_zoning_raise f e :
  llm_utils.convert_zoning f = Raise e -> is_JSONDecodeError e = false.
Proof.
  unfold llm_utils.convert_zoning, get_method, subscript, getitem, setitem,
    Str.int, bind.
  intros H. repeat (break_match; try discriminate); invert_results;
    reflexivity.
Qed.

Lemma normalize_raise query d e :
  normalize query d = Raise e -> is_JSONDecodeError e = false.
Proof.
  unfold normalize, bind.
  destruct (llm_utils.convert_feet query (VDict d)) eqn:E; intros H.
  - now apply convert_zoning_raise in H.
  - inversion H; subst. now apply convert_feet_raise in E.
Qed.

(** A block that parsed to an object: accepted when the three keys are
    there, passed over otherwise. *)
Lemma try_match_dict query m d :
  Json.loads m = Ok (VDict d) ->
  llm_utils.try_match query m =
  if has_required d
  then f <- normalize query d ;; Ok (Some f)
  else Ok None.
Proof.
  intros H. unfold llm_utils.try_match. rewrite H. simpl.
  rewrite accept_dict. destruct (has_required d); [|reflexivity].
  destruct (normalize query d) eqn:E; simpl; [reflexivity|].
  now rewrite (normalize_raise _ _ E).
Qed.

Lemma try_match_skipped query m :
  skipped m = true -> llm_utils.try_match query m = Ok None.
Proof.
  unfold skipped. destruct (Json.loads m) as [v|e] eqn:E.
  - destruct v; try discriminate. intros H.
    rewrite (try_match_dict _ _ E).
    now destruct (has_required d).
  - destruct e; try discriminate. intros _.
    unfold llm_utils.try_match. now rewrite E.
Qed.

Lemma for_matches_skip query pre rest :
  forallb skipped pre = true ->
  llm_utils.for_matches query (pre ++ rest)%list =
  llm_utils.for_matches query rest.
Proof.
  induction pre as [|m pre IH]; simpl; [reflexivity|].
  intros H. apply andb_true_iff in H as [Hm Hpre].
  rewrite (try_match_skipped _ _ Hm). simpl. now apply IH.
Qed.

Lemma for_matches_accept query m rest d :
  Json.loads m = Ok (VDict d) ->
  has_required d = true ->
  llm_utils.for_matches query (m :: rest) = normalize query d.
Proof.
  intros Hm Hd. simpl. rewrite (try_match_dict _ _ Hm), Hd.
  now destruct (normalize query d).
Qed.

Lemma for_matches_none query ms :
  forallb skipped ms = true ->
  llm_utils.for_matches query ms = Ok EmptyResult.
Proof.
  intros H. rewrite <- (app_nil_r ms). now rewrite for_matches_skip.
Qed.

(** ** [parse_query] *)

Lemma is_Exception_all e : is_Exception e = true.
Proof. now destruct e. Qed.

(** The generated text is printed before it is searched: a text that
    the standard output refuses ends the call with the empty result. *)
Lemma parse_query_text query r text :
  llm_utils.generated_text r = Ok text ->
  llm_utils.parse_query query r =
  Ok (if Str.printable text
      then match llm_utils.for_matches query (Re.findall text) with
           | Ok f => f
           | Raise _ => EmptyResult
           end
      else EmptyResult).
Proof.
  intros H. unfold llm_utils.parse_query, llm_utils.parse_query_body.
  rewrite H. simpl. unfold llm_utils.print_str.
  destruct (Str.printable text); simpl; [|reflexivity].
  destruct (llm_utils.for_matches query (Re.findall text)); simpl;
    [reflexivity | now rewrite is_Exception_all].
Qed.

Lemma parse_query_no_text query r e :
  llm_utils.generated_text r = Raise e ->
  llm_utils.parse_query query r = Ok EmptyResult.
Proof.
  intros H. unfold llm_utils.parse_query, llm_utils.parse_query_body.
  rewrite H. simpl. now rewrite is_Exception_all.
Qed.

(** The first block that is not passed over decides the result. *)
Lemma parse_query_first query r text pre m post d :
  llm_utils.generated_text r = Ok text ->
  Str.printable text = true ->
  Re.findall text = (pre ++ m :: post)%list ->
  forallb skipped pre = true ->
  Json.loads m = Ok (VDict d) ->
  has_required d = true ->
  llm_utils.parse_query query r = Ok (settle query d).
Proof.
  intros Ht Hp Hf Hpre Hm Hd.
  rewrite (parse_query_text _ _ Ht), Hp, Hf, for_matches_skip by exact Hpre.
  now rewrite (for_matches_accept _ _ _ Hm Hd).
Qed.

Lemma parse_query_none query r text :
  llm_utils.generated_text r = Ok text ->
  forallb skipped (Re.findall text) = true ->
  llm_utils.parse_query query r = Ok EmptyResult.
Proof.
  intros Ht Hs. rewrite (parse_query_text _ _ Ht).
  rewrite for_matches_none by exact Hs. now destruct (Str.printable text).
Qed.

Lemma parse_query_total query r :
  exists f, llm_utils.parse_query query r = Ok f.
Proof.
  destruct (llm_utils.generated_text r) as [text|e] eqn:E.
  - rewrite (parse_query_text _ _ E). eauto.
  - rewrite (parse_query_no_text _ _ E). eauto.
Qed.

(** ** The two normalizations *)

Lemma dict_get_lookup k d v : lookup k d = Some v -> dict_get k d = v.
Proof. unfold dict_get. now intros ->. Qed.


(** Feet to meters on a value that is no number: the product raises. *)
Lemma normalize_feet_raise q d v :
  mentions_feet q = true ->
  lookup "attribute" d = Some (VStr "height") ->
  lookup "value" d = Some v ->
  is_number v = false ->
  normalize (VStr q) d = Raise TypeError.
Proof.
  unfold mentions_feet. intros Hq Ha Hv Hn.
  unfold normalize, llm_utils.convert_feet. simpl. rewrite Hq.
  unfold getitem. rewrite Ha. simpl. rewrite Hv. simpl.
  now destruct v.
Qed.

(** Without "feet" in the query, or on another attribute than height,
    the first rule leaves the block as it is. *)
Lemma convert_feet_idle q d :
  mem "attribute" d = true ->
  mentions_feet q && eq_str (dict_get "attribute" d) "height" = false ->
  llm_utils.convert_feet (VStr q) (VDict d) = Ok (VDict d).
Proof.
  unfold mentions_feet, llm_utils.convert_feet, dict_get. simpl.
  intros Hm H. apply mem_lookup in Hm as [a Ha].
  unfold getitem. rewrite Ha in *.
  destruct (Str.contains "feet" (Str.lower q)); simpl in *; [|reflexivity].
  now rewrite H.
Qed.

(** The zoning rule on a block whose value is no string of digits. *)
Lemma convert_zoning_idle d :
  mem "value" d = true ->
  (eq_str (dict_get "attribute" d) "zoning" = false \/
   match dict_get "value" d with
   | VStr s => Str.isdigit s = false
   | _ => True
   end) ->
  llm_utils.convert_zoning (VDict d) = Ok (VDict d).
Proof.
  unfold llm_utils.convert_zoning, dict_get. simpl.
  intros Hm H. apply mem_lookup in Hm as [v Hv].
  unfold getitem, dict_get. rewrite Hv in *.
  destruct (eq_str _ "zoning"); [|reflexivity].
  destruct H as [H|H]; [discriminate|]. simpl.
  destruct v; try reflexivity. now rewrite H.
Qed.

(** The zoning rule on a string of decimal digits. *)
Lemma convert_zoning_decimal d s :
  lookup "attribute" d = Some (VStr "zoning") ->
  lookup "value" d = Some (VStr s) ->
  Str.isdigit s = true ->
  Str.isdecimal s = true ->
  digits_allowed (List.length (Unicode.decode s)) = true ->
  llm_utils.convert_zoning (VDict d) =
  Ok (VDict (dict_set "value"
               (VInt (fold_left (fun acc cp => 10 * acc + Unicode.decimal_value cp)
                                (Unicode.decode s) 0)) d)).
Proof.
  intros Ha Hv Hd Hc Hl. unfold llm_utils.convert_zoning. simpl.
  unfold dict_get, getitem. rewrite Ha. simpl. rewrite Hv. simpl.
  rewrite Hd. unfold Str.int. now rewrite Hc, Hl.
Qed.

(** The zoning rule on a string of digits that [int] refuses: one that
    holds a digit that is not decimal, or more digits than the
    interpreter converts. *)
Lemma convert_zoning_refused d s :
  lookup "attribute" d = Some (VStr "zoning") ->
  lookup "value" d = Some (VStr s) ->
  Str.isdigit s = true ->
  Str.isdecimal s && digits_allowed (List.length (Unicode.decode s)) = false ->
  llm_utils.convert_zoning (VDict d) = Raise ValueError.
Proof.
  intros Ha Hv Hd Hc. unfold llm_utils.convert_zoning. simpl.
  unfold dict_get, getitem. rewrite Ha. simpl. rewrite Hv. simpl.
  rewrite Hd. unfold Str.int. now rewrite Hc.
Qed.

Lemma normalize_ok query d f :
  has_required d = true ->
  normalize query d = Ok f ->
  exists d', f = VDict d' /\ has_required d' = true /\ keys d' = keys d.
Proof.
  assert (K : forall x d0, has_required d0 = true ->
                           keys (dict_set "value" x d0) = keys d0).
  { intros x d0 H0. apply keys_dict_set. unfold has_required in H0.
    now apply andb_true_iff in H0 as [_ H0]. }
  intros Hd. unfold normalize, bind.
  destruct (llm_utils.convert_feet query (VDict d)) as [f1|] eqn:E1;
    [|discriminate].
  intros E2.
  apply convert_feet_ok in E1 as [->|[x ->]].
  - apply convert_zoning_ok in E2 as [->|[y ->]].
    + eauto.
    + eexists; repeat split; auto using has_required_dict_set.
  - assert (Hx := has_required_dict_set x d Hd).
    apply convert_zoning_ok in E2 as [->|[y ->]].
    + eexists; repeat split; auto.
    + eexists; repeat split; auto using has_required_dict_set.
      now rewrite !K.
Qed.

(** A parsed value that is no object is never returned. *)
Lemma accept_nondict query v f :
  llm_utils.accept query v = Ok (Some f) -> exists d, v = VDict d.
Proof.
  destruct v; eauto; intros H; exfalso; revert H;
    unfold llm_utils.accept, llm_utils.convert_feet, llm_utils.convert_zoning,
      lower_method, get_method, subscript, bind; simpl;
    repeat (break_match; try discriminate); discriminate.
Qed.

Lemma try_match_ok query m f :
  llm_utils.try_match query m = Ok (Some f) ->
  exists d, Json.loads m = Ok (VDict d) /\ has_required d = true /\
            normalize query d = Ok f.
Proof.
  unfold llm_utils.try_match.
  destruct (Json.loads m) as [v|e] eqn:E; simpl.
  - unfold try_except.
    destruct (llm_utils.accept query v) as [o|e] eqn:A.
    + intros H. inversion H; subst.
      destruct (accept_nondict _ _ A) as [d ->].
      rewrite accept_dict in A. exists d. split; [reflexivity|].
      destruct (has_required d); [|discriminate]. split; [reflexivity|].
      destruct (normalize query d); [|discriminate]. now inversion A.
    + destruct (is_JSONDecodeError e); discriminate.
  - destruct (is_JSONDecodeError e); discriminate.
Qed.

Lemma for_matches_ok query ms f :
  llm_utils.for_matches query ms = Ok f ->
  f = EmptyResult \/
  exists m d, In m ms /\ Json.loads m = Ok (VDict d) /\
              has_required d = true /\ normalize query d = Ok f.
Proof.
  induction ms as [|m ms IH]; simpl.
  - intros H. inversion H. now left.
  - destruct (llm_utils.try_match query m) as [[g|]|e] eqn:E; simpl.
    + intros H. inversion H; subst. right.
      apply try_match_ok in E as (d & Hm & Hd & Hn).
      exists m, d. auto.
    + intros H. apply IH in H as [->|(m' & d & Hin & Hrest)]; [now left|].
      right. exists m', d. auto.
    + discriminate.
Qed.

(** [parse_query] returns a [dict]: the empty one, or one that has the
    three required keys. *)
Lemma parse_query_result query r f :
  llm_utils.parse_query query r = Ok f ->
  f = EmptyResult \/ exists d, f = VDict d /\ has_required d = true.
Proof.
  destruct (llm_utils.generated_text r) as [text|e] eqn:E.
  - rewrite (parse_query_text _ _ E).
    destruct (Str.printable text); [|intros [= <-]; now left].
    destruct (llm_utils.for_matches query (Re.findall text)) as [g|] eqn:F;
      intros H; inversion H; subst; [|now left].
    apply for_matches_ok in F as [->|(m & d & _ & _ & Hd & Hn)]; [now left|].
    right. destruct (normalize_ok _ _ Hd Hn) as (d' & -> & Hd' & _). eauto.
  - rewrite (parse_query_no_text _ _ E). intros H. inversion H. now left.
Qed.

(** ** The test for "feet" *)

Lemma startswith_iff p : forall s,
  Str.startswith p s = true <-> exists w, s = (p ++ w)%string.
Proof.
  induction p as [|a p IH]; intros s; simpl.
  - split; [intros _; now exists s | reflexivity].
  - destruct s as [|b s].
    + split; [discriminate | intros [w H]; discriminate].
    + rewrite andb_true_iff, IH. split.
      * intros [Hab [w ->]]. apply Ascii.eqb_eq in Hab. subst. now exists w.
      * intros [w H]. inversion H; subst. split; [apply Ascii.eqb_refl|now exists w].
Qed.

Lemma contains_iff p s :
  Str.contains p s = true <-> exists u w, s = (u ++ p ++ w)%string.
Proof.
  induction s as [|c s IH]; simpl; rewrite orb_true_iff, startswith_iff.
  - split.
    + intros [[w H]|H]; [|discriminate]. now exists EmptyString, w.
    + intros (u & w & H). left. destruct u; [now exists w|discriminate].
  - rewrite IH. split.
    + intros [[w H]|(u & w & ->)].
      * now exists EmptyString, w.
      * now exists (String c u), w.
    + intros (u & w & H). destruct u as [|x u]; simpl in H.
      * left. now exists w.
      * right. inversion H; subst. now exists u, w.
Qed.

Lemma lower_app a b : Str.lower (a ++ b) = (Str.lower a ++ Str.lower b)%string.
Proof. induction a as [|x a IH]; simpl; [reflexivity | now rewrite IH]. Qed.

Lemma lower_split s : forall a b,
  Str.lower s = (a ++ b)%string ->
  exists s1 s2, s = (s1 ++ s2)%string /\ Str.lower s1 = a /\ Str.lower s2 = b.
Proof.
  induction s as [|c s IH]; intros a b H; simpl in H.
  - destruct a; [|discriminate]. simpl in H. subst b.
    now exists EmptyString, EmptyString.
  - destruct a as [|x a]; simpl in H.
    + exists EmptyString, (String c s). now subst b.
    + inversion H; subst. destruct (IH _ _ H2) as (s1 & s2 & -> & <- & <-).
      now exists (String c s1), s2.
Qed.

(** The query mentions feet exactly when some stretch of it reads
    "feet" once its letters are put in lower case. *)
Lemma mentions_feet_iff query :
  mentions_feet query = true <->
  exists u f w, query = (u ++ f ++ w)%string /\ Str.lower f = "feet".
Proof.
  unfold mentions_feet. rewrite contains_iff. split.
  - intros (u' & w' & H).
    apply lower_split in H as (u & fw & -> & _ & H).
    apply lower_split in H as (f & w & -> & Hf & _).
    now exists u, f, w.
  - intros (u & f & w & -> & Hf).
    exists (Str.lower u), (Str.lower w). now rewrite !lower_app, Hf.
Qed.

Lemma findall_shape ms : forall s,
  Re.findall s = ms -> Forall block_shape ms.
Proof.
  induction ms as [|m ms IH]; intros s H; constructor.
  - apply scan_outside_inv in H as (gap & body & rest & _ & _ & Hb & -> & _).
    now exists body.
  - apply scan_outside_inv in H as (gap & body & rest & _ & _ & _ & _ & ->).
    now apply (IH rest).
Qed.



(** The first block that is not passed over, when it has the three
    keys. *)
Lemma parse_query_decided query r text pre m post d :
  llm_utils.generated_text r = Ok text ->
  Re.findall text = (pre ++ m :: post)%list ->
  forallb skipped pre = true ->
  Json.loads m = Ok (VDict d) ->
  has_required d = true ->
  llm_utils.parse_query query r =
  Ok (if Str.printable text then settle query d else EmptyResult).
Proof.
  intros Ht Hf Hpre Hm Hd.
  rewrite (parse_query_text _ _ Ht), Hf, for_matches_skip by exact Hpre.
  now rewrite (for_matches_accept _ _ _ Hm Hd).
Qed.


(* ------------------------------------------------------------------ *)
(** ** The claims *)

(** C6.  The candidate-extraction step produces exactly the candidate
    blocks of the specification: the non-overlapping substrings that
    start at a [{] and end at the next [}], in their order of appearance;
    a block may span line breaks, and a nested object is cut at its first
    inner [}].  Stripping the generated text beforehand changes nothing. *)
Theorem findall_candidate_blocks :
  (forall text ms, Re.findall text = ms <-> candidate_blocks text ms) /\
  (forall text, Re.findall (Str.strip text) = Re.findall text) /\
  Re.findall (dq "x {'a': {'b': 1}} y") = [dq "{'a': {'b': 1}"] /\
  Re.findall ("{" ++ Examples.nl ++ "} {" ++ Examples.nl ++ Examples.nl ++ "}")
  = [("{" ++ Examples.nl ++ "}")%string;
     ("{" ++ Examples.nl ++ Examples.nl ++ "}")%string].
Proof.
  split; [|split; [exact findall_strip|split; reflexivity]].
  intros text ms. split; [apply findall_complete | apply findall_sound].
Qed.

Lemma findall_candidate_blocks_witness :
  candidate_blocks (dq "a {'k': 1} b {c") [dq "{'k': 1}"].
Proof.
  apply (proj1 findall_candidate_blocks). vm_compute. reflexivity.
Defined.

Lemma generated_text_response code text :
  llm_utils.generated_text (llm_utils.Response code text) =
  if (400 <=? code) && (code <? 600) then Raise HTTPError
  else full_json <- llm_utils.json (code, text) ;;
       _ <- llm_utils.print_value full_json ;;
       first <- first_item full_json ;;
       g <- get_method_default first "generated_text" (VStr "") ;;
       strip_method g.
Proof.
  unfold llm_utils.generated_text, llm_utils.raise_for_status. simpl.
  now destruct ((400 <=? code) && (code <? 600)).
Qed.

Lemma failure_empty query r :
  failure r -> llm_utils.parse_query query r = Ok EmptyResult.
Proof.
  intros F. destruct F as [|code text Hc|code text e He
                           |code text full e Hj He|code text full d Hj Hf Hl
                           |r text Ht Hs].
  - now apply parse_query_no_text with (e := ConnectionError).
  - apply parse_query_no_text with (e := HTTPError).
    rewrite generated_text_response.
    replace ((400 <=? code) && (code <? 600)) with true; [reflexivity|].
    symmetry. apply andb_true_iff. split; [apply Z.leb_le|apply Z.ltb_lt]; lia.
  - destruct ((400 <=? code) && (code <? 600)) eqn:Hc;
      [apply parse_query_no_text with (e := HTTPError)
      |apply parse_query_no_text with (e := e)];
      rewrite generated_text_response, Hc; [reflexivity|].
    now rewrite He.
  - destruct ((400 <=? code) && (code <? 600)) eqn:Hc.
    + apply parse_query_no_text with (e := HTTPError).
      now rewrite generated_text_response, Hc.
    + destruct (llm_utils.print_value full) as [[]|e'] eqn:Hp.
      * apply parse_query_no_text with (e := e).
        rewrite generated_text_response, Hc, Hj. simpl. rewrite Hp. exact He.
      * apply parse_query_no_text with (e := e').
        rewrite generated_text_response, Hc, Hj. simpl. now rewrite Hp.
  - destruct ((400 <=? code) && (code <? 600)) eqn:Hc.
    + apply parse_query_no_text with (e := HTTPError).
      now rewrite generated_text_response, Hc.
    + apply parse_query_none with (text := EmptyString); [|reflexivity].
      rewrite generated_text_response, Hc, Hj. simpl.
      assert (Hp : llm_utils.print_value full = Ok tt).
      { destruct full; try reflexivity. simpl in Hf.
        destruct (Unicode.decode s); discriminate. }
      rewrite Hp. simpl. rewrite Hf. simpl.
      unfold dict_get_default. now rewrite Hl.
  - now apply parse_query_none with (text := text).
Qed.

(** C5.  [parse_query] never raises: for every query string and every
    outcome of the call to the collaborator it returns a value, and on
    every failure path (transport failure, non-success status, body that
    is no JSON, malformed shape, missing generated text, no candidate
    that parses, no candidate with the three keys) that value is the
    empty dict. *)
Theorem parse_query_never_raises (query : string) (r : llm_utils.reply) :
  (exists f, llm_utils.parse_query (VStr query) r = Ok f) /\
  (failure r -> llm_utils.parse_query (VStr query) r = Ok EmptyResult).
Proof.
  split; [apply parse_query_total | apply failure_empty].
Qed.

(** C10.  When the query mentions feet and the first block that has the
    three keys is a height whose value is no number, the product with
    0.3048 raises, the handler around the whole body swallows the
    exception, and the result is the empty dict whatever blocks follow. *)
Theorem feet_on_non_number_is_empty
        (query text : string) (r : llm_utils.reply)
        (pre post : list string) (m : string) (d : dict) (v : value) :
  llm_utils.generated_text r = Ok text ->
  Re.findall text = (pre ++ m :: post)%list ->
  forallb skipped pre = true ->
  Json.loads m = Ok (VDict d) ->
  has_required d = true ->
  mentions_feet query = true ->
  lookup "attribute" d = Some (VStr "height") ->
  lookup "value" d = Some v ->
  is_number v = false ->
  llm_utils.parse_query (VStr query) r = Ok EmptyResult.
Proof.
  intros Ht Hf Hpre Hm Hd Hq Ha Hv Hn.
  rewrite (parse_query_decided _ _ _ _ _ Ht Hf Hpre Hm Hd).
  unfold settle. rewrite (normalize_feet_raise _ _ Hq Ha Hv Hn).
  now destruct (Str.printable text).
Qed.

(** C9.  Once a dataset file has been loaded, [GET /api/buildings]
    answers 200 with the parsed document itself, and no request, of
    either kind and in whatever number, changes the document held. *)
Theorem get_buildings_round_trip (content : string) (doc : value) :
  Json.loads content = Ok doc ->
  exists st0,
    app.startup (Some content) = Ok st0 /\
    app.get_buildings st0 = {| app.status := 200; app.body := doc |} /\
    forall rqs,
      snd (app.serve st0 rqs) = st0 /\
      forall i, nth_error rqs i = Some app.GET_buildings ->
                nth_error (fst (app.serve st0 rqs)) i
                = Some (Ok {| app.status := 200; app.body := doc |}).
Proof.
  intros H. exists {| app.building_data := doc |}.
  split; [unfold app.startup; now rewrite H|]. split; [reflexivity|].
  induction rqs as [|rq rqs [IHs IHg]].
  - split; [reflexivity|]. now intros [|i].
  - simpl.
    destruct (app.handle {| app.building_data := doc |} rq) as [resp st1] eqn:E.
    assert (st1 = {| app.building_data := doc |}) as ->.
    { destruct rq; simpl in E; now inversion E. }
    destruct (app.serve {| app.building_data := doc |} rqs) as [resps st2].
    simpl in *. split; [exact IHs|].
    intros [|i] Hi; simpl in *.
    + inversion Hi; subst. simpl in E. now inversion E.
    + now apply IHg.
Qed.

Lemma eq_str_true v s : eq_str v s = true -> v = VStr s.
Proof.
  destruct v; try discriminate. simpl. intros H.
  apply String.eqb_eq in H. now subst.
Qed.

(** An accepted block whose value is null. *)
Lemma settle_null q d :
  has_required d = true ->
  lookup "value" d = Some VNone ->
  settle (VStr q) d =
  if mentions_feet q && eq_str (dict_get "attribute" d) "height"
  then EmptyResult else VDict d.
Proof.
  intros Hd Hv. unfold settle.
  assert (Ha : mem "attribute" d = true).
  { unfold has_required in Hd. now destruct (mem "attribute" d). }
  assert (Hm : mem "value" d = true) by (unfold mem; now rewrite Hv).
  destruct (mentions_feet q && eq_str (dict_get "attribute" d) "height") eqn:B.
  - apply andb_true_iff in B as [Hq Hh].
    apply eq_str_true in Hh. apply mem_lookup in Ha as [a Ha'].
    rewrite (dict_get_lookup _ _ Ha') in Hh. subst a.
    now rewrite (normalize_feet_raise _ _ Hq Ha' Hv eq_refl).
  - unfold normalize. rewrite (convert_feet_idle _ _ Ha B). simpl.
    rewrite convert_zoning_idle; [reflexivity|exact Hm|].
    right. now rewrite (dict_get_lookup _ _ Hv).
Qed.




(** What does hold of the zoning rule: a string of decimal digits, no
    longer than the interpreter converts, becomes the integer it
    writes; a string of digits that is longer, or that holds a digit
    that is not decimal, loses the block; and a string with a character
    that is no digit stays as it is. *)
Lemma zoning_on_decimal_and_other_strings
      (query text : string) (r : llm_utils.reply)
      (pre post : list string) (m : string) (d : dict) (s : string) :
  llm_utils.generated_text r = Ok text ->
  Str.printable text = true ->
  Re.findall text = (pre ++ m :: post)%list ->
  forallb skipped pre = true ->
  Json.loads m = Ok (VDict d) ->
  has_required d = true ->
  lookup "attribute" d = Some (VStr "zoning") ->
  lookup "value" d = Some (VStr s) ->
  (Str.isdecimal s = true ->
   digits_allowed (List.length (Unicode.decode s)) = true ->
   llm_utils.parse_query (VStr query) r =
   Ok (VDict (dict_set "value"
                (VInt (fold_left (fun acc cp => 10 * acc + Unicode.decimal_value cp)
                                 (Unicode.decode s) 0)) d))) /\
  (Str.isdigit s = true ->
   Str.isdecimal s && digits_allowed (List.length (Unicode.decode s)) = false ->
   llm_utils.parse_query (VStr query) r = Ok EmptyResult) /\
  (Str.isdigit s = false ->
   llm_utils.parse_query (VStr query) r = Ok (VDict d)).
Proof.
  intros Ht Hp Hf Hpre Hm Hd Ha Hv.
  rewrite (parse_query_first _ _ _ _ _ Ht Hp Hf Hpre Hm Hd).
  assert (Hma : mem "attribute" d = true) by (unfold mem; now rewrite Ha).
  assert (Hmv : mem "value" d = true) by (unfold mem; now rewrite Hv).
  assert (Hfeet : llm_utils.convert_feet (VStr query) (VDict d) = Ok (VDict d)).
  { apply convert_feet_idle; [exact Hma|].
    rewrite (dict_get_lookup _ _ Ha). apply andb_false_r. }
  unfold settle, normalize. rewrite Hfeet. simpl. repeat split.
  - intros Hc Hl.
    rewrite (convert_zoning_decimal _ Ha Hv); [reflexivity| |exact Hc|exact Hl].
    unfold Str.isdigit, Str.isdecimal in *.
    destruct (Unicode.decode s); [discriminate|].
    rewrite forallb_forall in *. intros cp Hin.
    unfold Unicode.is_digit. now rewrite (Hc cp Hin).
  - intros Hg Hc. now rewrite (convert_zoning_refused _ Ha Hv Hg Hc).
  - intros Hn. rewrite convert_zoning_idle; [reflexivity|exact Hmv|].
    right. now rewrite (dict_get_lookup _ _ Hv).
Qed.

(** C7, as the code has it.  A result that is not the empty dict is the
    accepted block itself, with its value possibly normalized: it has the
    keys of that block, in their order, and the three required keys are
    among them. *)
Theorem result_has_keys_of_block (query : string) (r : llm_utils.reply) (f : value) :
  llm_utils.parse_query (VStr query) r = Ok f ->
  f <> EmptyResult ->
  exists text m d0 d,
    llm_utils.generated_text r = Ok text /\
    In m (Re.findall text) /\
    Json.loads m = Ok (VDict d0) /\
    f = VDict d /\
    keys d = keys d0 /\
    has_required d = true.
Proof.
  intros H Hne.
  destruct (llm_utils.generated_text r) as [text|e] eqn:E.
  - rewrite (parse_query_text _ _ E) in H.
    destruct (Str.printable text); [|inversion H; subst; contradiction].
    destruct (llm_utils.for_matches (VStr query) (Re.findall text)) as [g|] eqn:F;
      inversion H; subst; [|contradiction].
    apply for_matches_ok in F as [->|(m & d0 & Hin & Hm & Hd & Hn)];
      [contradiction|].
    destruct (normalize_ok _ _ Hd Hn) as (d & -> & Hd' & Hk).
    exists text, m, d0, d. auto 10.
  - rewrite (parse_query_no_text _ _ E) in H. inversion H; subst. contradiction.
Qed.

Lemma parse_query_dict query r :
  exists d, llm_utils.parse_query query r = Ok (VDict d).
Proof.
  destruct (parse_query_total query r) as [f H].
  destruct (parse_query_result _ _ H) as [->|(d & -> & _)]; eauto.
Qed.

(** The view, once the body of the request is a JSON object. *)
Lemma query_buildings_object request r f :
  llm_utils.parse_query (dict_get_default "query" (VStr "") request) r
  = Ok (VDict f) ->
  app.query_buildings (VDict request) r =
  Ok (if truthy (dict_get "attribute" f) && truthy (dict_get "operator" f)
         && is_not_None (dict_get "value" f)
      then {| app.status := 200; app.body := VDict f |}
      else {| app.status := 400; app.body := app.invalid_output |}).
Proof.
  intros H. unfold app.query_buildings. simpl. rewrite H. simpl.
  now destruct (truthy (dict_get "attribute" f) && truthy (dict_get "operator" f)
                && is_not_None (dict_get "value" f)).
Qed.

(** C8, as the code has it.  For a POST whose body is a JSON object, a
    missing [query] key stands for the empty string; the answer is 200
    with the filter exactly when its [attribute] and its [operator] are
    truthy (present, and neither null, false, zero nor empty) and its
    [value] is not null, and 400 with the error body otherwise, so in
    particular for the empty result. *)
Theorem query_buildings_status (request : dict) (r : llm_utils.reply) :
  (lookup "query" request = None ->
   app.query_buildings (VDict request) r =
   app.query_buildings (VDict (dict_set "query" (VStr "") request)) r) /\
  (exists f,
      llm_utils.parse_query (dict_get_default "query" (VStr "") request) r
      = Ok (VDict f) /\
      app.query_buildings (VDict request) r =
      Ok (if truthy (dict_get "attribute" f) && truthy (dict_get "operator" f)
             && is_not_None (dict_get "value" f)
          then {| app.status := 200; app.body := VDict f |}
          else {| app.status := 400; app.body := app.invalid_output |})) /\
  (llm_utils.parse_query (dict_get_default "query" (VStr "") request) r
   = Ok EmptyResult ->
   app.query_buildings (VDict request) r =
   Ok {| app.status := 400; app.body := app.invalid_output |}).
Proof.
  repeat split.
  - intros H. unfold app.query_buildings. simpl.
    unfold dict_get_default. now rewrite H, lookup_dict_set_same.
  - destruct (parse_query_dict (dict_get_default "query" (VStr "") request) r)
      as [f H].
    exists f. split; [exact H | now apply query_buildings_object].
  - intros H. now rewrite (query_buildings_object _ _ H).
Qed.

(* ------------------------------------------------------------------ *)
(** ** Further properties of [parse_query] and of the views *)

(** *** A query that is no string *)

Lemma accept_not_str query v :
  (forall s, query <> VStr s) ->
  llm_utils.accept query v = Ok None \/ exists e, llm_utils.accept query v = Raise e.
Proof.
  intros Hq. unfold llm_utils.accept.
  destruct (llm_utils.print_value v) as [[]|e]; [|right; eexists; reflexivity].
  cbn [bind].
  destruct (llm_utils.all_in llm_utils.REQUIRED v) as [[|]|e]; simpl; eauto.
  right. unfold llm_utils.convert_feet.
  destruct query as [| | | |q| |]; simpl; eauto. now destruct (Hq q).
Qed.

Lemma for_matches_not_str query ms :
  (forall s, query <> VStr s) ->
  llm_utils.for_matches query ms = Ok EmptyResult \/
  exists e, llm_utils.for_matches query ms = Raise e.
Proof.
  intros Hq. induction ms as [|m ms IH]; simpl; [now left|].
  unfold llm_utils.try_match.
  destruct (Json.loads m) as [v|e] eqn:E; simpl.
  - destruct (accept_not_str v Hq) as [->|[e ->]]; simpl; [exact IH|].
    destruct (is_JSONDecodeError e); simpl; [exact IH|eauto].
  - destruct (is_JSONDecodeError e); simpl; [exact IH|eauto].
Qed.

Lemma parse_query_not_str query r :
  (forall s, query <> VStr s) ->
  llm_utils.parse_query query r = Ok EmptyResult.
Proof.
  intros Hq. destruct (llm_utils.generated_text r) as [text|e] eqn:E.
  - rewrite (parse_query_text _ _ E).
    destruct (Str.printable text); [|reflexivity].
    now destruct (for_matches_not_str (Re.findall text) Hq) as [->|[e ->]].
  - now rewrite (parse_query_no_text _ _ E).
Qed.

(** When the query is not a string (a number, a list, null), the method
    call [query.lower()] fails as soon as a block has the three keys: the
    result is the empty dict for every reply, and the view answers 400. *)
Theorem query_not_a_string_is_rejected
        (request : dict) (query : value) (r : llm_utils.reply) :
  lookup "query" request = Some query ->
  (forall s, query <> VStr s) ->
  llm_utils.parse_query query r = Ok EmptyResult /\
  app.query_buildings (VDict request) r =
  Ok {| app.status := 400; app.body := app.invalid_output |}.
Proof.
  intros Hl Hq.
  pose proof (parse_query_not_str r Hq) as P.
  split; [exact P|].
  rewrite (@query_buildings_object request r []); [reflexivity|].
  unfold dict_get_default. now rewrite Hl.
Qed.

(** *** What a 200 answer carries *)

(** The view answers an object body with 200 or with 400 and nothing
    else.  A 200 answer carries a filter that has the three keys, a
    truthy attribute, a truthy operator and a value that is not null; a
    400 answer carries the error body. *)
Theorem query_buildings_answers (request : dict) (r : llm_utils.reply) :
  exists resp,
    app.query_buildings (VDict request) r = Ok resp /\
    ((app.status resp = 200 /\
      exists d, app.body resp = VDict d /\
                has_required d = true /\
                truthy (dict_get "attribute" d) = true /\
                truthy (dict_get "operator" d) = true /\
                dict_get "value" d <> VNone) \/
     (app.status resp = 400 /\ app.body resp = app.invalid_output)).
Proof.
  destruct (parse_query_total (dict_get_default "query" (VStr "") request) r)
    as [f H].
  destruct (parse_query_result _ _ H) as [->|(d & -> & Hd)].
  - rewrite (@query_buildings_object request r [] H). simpl. eauto.
  - rewrite (query_buildings_object _ _ H).
    destruct (truthy (dict_get "attribute" d)) eqn:Ta;
      destruct (truthy (dict_get "operator" d)) eqn:To;
      destruct (dict_get "value" d) eqn:Tv; simpl; eauto;
      eexists; (split; [reflexivity|]); left; (split; [reflexivity|]);
      exists d; simpl; rewrite ?Tv; repeat split; auto; discriminate.
Qed.

(** *** What normalization leaves alone *)

Lemma convert_feet_other query d f :
  llm_utils.convert_feet query (VDict d) = Ok f ->
  eq_str (dict_get "attribute" d) "height" = false ->
  f = VDict d.
Proof.
  unfold llm_utils.convert_feet, lower_method, subscript, getitem, dict_get, bind.
  intros H Ha.
  repeat (break_match; try discriminate); invert_results; congruence.
Qed.

Lemma convert_zoning_other d f :
  llm_utils.convert_zoning (VDict d) = Ok f ->
  eq_str (dict_get "attribute" d) "zoning" = false ->
  f = VDict d.
Proof.
  unfold llm_utils.convert_zoning, get_method, bind.
  intros H Ha. rewrite Ha in H. now inversion H.
Qed.

Lemma normalize_frame query d f :
  normalize query d = Ok f ->
  exists d',
    f = VDict d' /\
    (forall k, k <> "value" -> lookup k d' = lookup k d) /\
    (eq_str (dict_get "attribute" d) "height" = false ->
     eq_str (dict_get "attribute" d) "zoning" = false ->
     d' = d).
Proof.
  unfold normalize, bind.
  destruct (llm_utils.convert_feet query (VDict d)) as [f1|] eqn:E1;
    [|discriminate].
  intros E2.
  assert (F : forall x k d0, k <> "value" ->
                             lookup k (dict_set "value" x d0) = lookup k d0).
  { intros x k d0 Hk. apply lookup_dict_set_other. congruence. }
  pose proof E1 as E1'.
  apply convert_feet_ok in E1 as [->|[x ->]].
  - pose proof E2 as E2'.
    apply convert_zoning_ok in E2 as [->|[y ->]].
    + exists d. auto.
    + eexists. split; [reflexivity|]. split; [auto|].
      intros _ Hz. apply (convert_zoning_other _ E2') in Hz.
      injection Hz as Hz. exact Hz.
  - pose proof E2 as E2'.
    apply convert_zoning_ok in E2 as [->|[y ->]].
    + eexists. split; [reflexivity|]. split; [auto|].
      intros Hh _. apply (convert_feet_other _ _ E1') in Hh.
      injection Hh as Hh. exact Hh.
    + eexists. split; [reflexivity|]. split.
      * intros k Hk. now rewrite !F.
      * intros Hh Hz. apply (convert_feet_other _ _ E1') in Hh.
        injection Hh as Hh. rewrite Hh in *.
        apply (convert_zoning_other _ E2') in Hz.
        injection Hz as Hz. exact Hz.
Qed.

(** [parse_query] rewrites nothing but [value]: every other key of the
    result holds what the accepted block held, and when the attribute is
    neither height nor zoning the result is the accepted block itself. *)
Theorem only_value_is_rewritten (query : value) (r : llm_utils.reply) (f : value) :
  llm_utils.parse_query query r = Ok f ->
  f <> EmptyResult ->
  exists text m d0 d,
    llm_utils.generated_text r = Ok text /\
    In m (Re.findall text) /\
    Json.loads m = Ok (VDict d0) /\
    f = VDict d /\
    (forall k, k <> "value" -> lookup k d = lookup k d0) /\
    (eq_str (dict_get "attribute" d0) "height" = false ->
     eq_str (dict_get "attribute" d0) "zoning" = false ->
     d = d0).
Proof.
  intros H Hne.
  destruct (llm_utils.generated_text r) as [text|e] eqn:E.
  - rewrite (parse_query_text _ _ E) in H.
    destruct (Str.printable text); [|inversion H; subst; contradiction].
    destruct (llm_utils.for_matches query (Re.findall text)) as [g|] eqn:F;
      inversion H; subst; [|contradiction].
    apply for_matches_ok in F as [->|(m & d0 & Hin & Hm & Hd & Hn)];
      [contradiction|].
    destruct (normalize_frame _ _ Hn) as (d & -> & Hk & Hsame).
    exists text, m, d0, d. auto 10.
  - rewrite (parse_query_no_text _ _ E) in H. inversion H; subst. contradiction.
Qed.

(** *** A null value in the first accepted block *)

(** When the first block with the three keys has a null value, the view
    answers 400, whatever the query and whatever blocks follow: the block
    ends the scan in [parse_query] and fails the test of the view. *)
Theorem null_value_block_gives_400
        (request : dict) (r : llm_utils.reply) (text : string)
        (pre post : list string) (m : string) (d : dict) :
  llm_utils.generated_text r = Ok text ->
  Re.findall text = (pre ++ m :: post)%list ->
  forallb skipped pre = true ->
  Json.loads m = Ok (VDict d) ->
  has_required d = true ->
  lookup "value" d = Some VNone ->
  app.query_buildings (VDict request) r =
  Ok {| app.status := 400; app.body := app.invalid_output |}.
Proof.
  intros Ht Hf Hpre Hm Hd Hv.
  assert (P : llm_utils.parse_query (dict_get_default "query" (VStr "") request) r
              = Ok EmptyResult \/
              llm_utils.parse_query (dict_get_default "query" (VStr "") request) r
              = Ok (VDict d)).
  { destruct (dict_get_default "query" (VStr "") request) as [| | | |s| |] eqn:Q;
      try (left; apply parse_query_not_str; discriminate).
    rewrite (parse_query_decided (VStr s) _ _ _ _ Ht Hf Hpre Hm Hd).
    rewrite (settle_null s d Hd Hv).
    destruct (Str.printable text); [|auto].
    destruct (mentions_feet s && eq_str (dict_get "attribute" d) "height"); auto. }
  destruct P as [P|P]; rewrite (query_buildings_object _ _ P).
  - reflexivity.
  - rewrite (dict_get_lookup _ _ Hv). simpl. now rewrite andb_false_r.
Qed.

(** *** The candidate blocks again *)

Lemma findall_block_then m rest :
  block_shape m -> Re.findall (m ++ rest) = m :: Re.findall rest.
Proof.
  intros (body & -> & Hb). unfold Re.findall. simpl.
  rewrite append_assoc. simpl.
  now rewrite scan_inside_close by exact Hb.
Qed.

Lemma findall_concat_shape sep ms :
  Re.free_of Re.open_brace sep = true ->
  Forall block_shape ms ->
  Re.findall (String.concat sep ms) = ms.
Proof.
  intros Hsep. induction 1 as [|m ms Hm Hms IH]; [reflexivity|].
  destruct ms as [|m' ms'].
  - simpl. rewrite <- (append_nil_r m) at 1.
    now rewrite findall_block_then.
  - change (String.concat sep (m :: m' :: ms'))
      with (m ++ sep ++ String.concat sep (m' :: ms'))%string.
    rewrite findall_block_then by exact Hm.
    unfold Re.findall in *. rewrite scan_gap by exact Hsep. now rewrite IH.
Qed.

(** Extraction is stable: joining the blocks of a text, with any
    separator that has no [{], and extracting again gives the same
    blocks.  Each block starts with [{], ends with [}] and has no other
    [}]. *)
Theorem findall_of_joined_blocks (sep text : string) :
  Re.free_of Re.open_brace sep = true ->
  Forall block_shape (Re.findall text) /\
  Re.findall (String.concat sep (Re.findall text)) = Re.findall text.
Proof.
  intros Hsep.
  pose proof (@findall_shape (Re.findall text) text eq_refl) as Hs.
  split; [exact Hs | now apply findall_concat_shape].
Qed.

Lemma findall_of_joined_blocks_witness :
  Forall block_shape (Re.findall (dq "a {'k': {'n': 1}} b {} c}")) /\
  Re.findall (String.concat ", " (Re.findall (dq "a {'k': {'n': 1}} b {} c}")))
  = Re.findall (dq "a {'k': {'n': 1}} b {} c}").
Proof.
  apply (@findall_of_joined_blocks ", " (dq "a {'k': {'n': 1}} b {} c}")).
  reflexivity.
Defined.




(** *** Feet to meters without rounding surprises *)






(** *** Nested objects *)

Lemma occ_skip_ws c s : (occ c (Json.skip_ws s) <= occ c s)%nat.
Proof.
  induction s as [|x s IH]; simpl; [lia|].
  destruct (Json.is_ws x); simpl; lia.
Qed.

Lemma occ_expect c x s r :
  Json.expect x s = Some r ->
  occ c s = ((if Ascii.eqb x c then 1 else 0) + occ c r)%nat.
Proof.
  destruct s as [|y s]; simpl; [discriminate|].
  destruct (Ascii.eqb_spec y x) as [->|]; [|discriminate]. now intros [= ->].
Qed.

Lemma occ_strip_prefix c p : forall s r,
  Json.strip_prefix p s = Some r -> (occ c r <= occ c s)%nat.
Proof.
  induction p as [|a p IH]; intros s r; simpl.
  - intros [= ->]. lia.
  - destruct s as [|b s]; [discriminate|].
    destruct (Ascii.eqb a b); [|discriminate].
    intros H. apply IH in H. simpl. lia.
Qed.

Lemma occ_span_digits c s : forall ds r,
  Json.span_digits s = (ds, r) -> (occ c r <= occ c s)%nat.
Proof.
  induction s as [|x s IH]; intros ds r; simpl.
  - intros [= <- <-]. simpl. lia.
  - destruct (Json.is_digit x).
    + destruct (Json.span_digits s) as [ds' r'] eqn:E.
      intros [= <- <-]. specialize (IH _ _ eq_refl). lia.
    + intros [= <- <-]. simpl. lia.
Qed.

Lemma occ_int_part c s i r :
  Json.int_part s = Some (i, r) -> (occ c r <= occ c s)%nat.
Proof.
  unfold Json.int_part. destruct s as [|x s]; [discriminate|].
  destruct (Ascii.eqb x "0").
  - intros [= <- <-]. simpl. lia.
  - destruct (Json.is_digit x); [|discriminate].
    destruct (Json.span_digits (String x s)) as [ds r'] eqn:E.
    intros [= <- <-]. now apply (occ_span_digits c) in E.
Qed.

Lemma occ_frac_part c s f r :
  Json.frac_part s = Some (f, r) -> (occ c r <= occ c s)%nat.
Proof.
  unfold Json.frac_part. destruct (Json.expect "." s) as [s'|] eqn:E; [|discriminate].
  apply (occ_expect c) in E. destruct s' as [|d t]; [discriminate|].
  destruct (Json.is_digit d); [|discriminate].
  destruct (Json.span_digits (String d t)) as [ds r'] eqn:S.
  intros [= <- <-]. apply (occ_span_digits c) in S.
  destruct (Ascii.eqb "." c); lia.
Qed.

Lemma occ_exp_part c s e r :
  Json.exp_part s = Some (e, r) -> (occ c r <= occ c s)%nat.
Proof.
  unfold Json.exp_part. destruct s as [|x s]; [discriminate|].
  destruct (Ascii.eqb x "e" || Ascii.eqb x "E"); [|discriminate].
  destruct (Json.expect "-" s) as [t|] eqn:E1;
    [|destruct (Json.expect "+" s) as [t|] eqn:E2].
  all: match goal with
       | |- context [Json.span_digits ?u] =>
           destruct (Json.span_digits u) as [ds r'] eqn:S
       end;
       destruct ds; [discriminate|]; intros [= <- <-];
       apply (occ_span_digits c) in S;
       try apply (occ_expect c) in E1; try apply (occ_expect c) in E2;
       simpl in *; lia.
Qed.

Lemma occ_match_number c s v r :
  Json.match_number s = Some (v, r) -> (occ c r <= occ c s)%nat.
Proof.
  unfold Json.match_number.
  destruct (Json.expect "-" s) as [t|] eqn:E0;
    [apply (occ_expect c) in E0|];
    (match goal with
     | |- context [Json.int_part ?u] =>
         destruct (Json.int_part u) as [[i s1]|] eqn:I; [|discriminate]
     end);
    apply (occ_int_part c) in I;
    (destruct (Json.frac_part s1) as [[f s2]|] eqn:F;
     [apply (occ_frac_part c) in F;
      destruct (Json.exp_part s2) as [[e s3]|] eqn:X
     |destruct (Json.exp_part s1) as [[e s3]|] eqn:X]);
    try apply (occ_exp_part c) in X; simpl; intros [= <- <-]; lia.
Qed.

Lemma occ_scan_items c s : forall its r,
  Json.scan_items s = Some (its, r) -> (occ c r <= occ c s)%nat.
Proof.
  induction s as [s IH] using (well_founded_induction
                                 (Wf_nat.well_founded_ltof _ String.length)).
  unfold Wf_nat.ltof in IH.
  intros its r. destruct s as [|x s1]; simpl; [discriminate|].
  destruct (Ascii.eqb x "034"); [intros [= <- <-]; lia|].
  destruct (Ascii.eqb x "\").
  - destruct s1 as [|e s2]; [discriminate|].
    destruct (Ascii.eqb e "u").
    + destruct s2 as [|h1 [|h2 [|h3 [|h4 s3]]]]; try discriminate.
      destruct (Json.hex4 h1 h2 h3 h4); [|discriminate].
      destruct (Json.scan_items s3) as [[its' r']|] eqn:E; [|discriminate].
      intros [= <- <-]. apply IH in E; simpl in *; lia.
    + destruct (Json.simple_escape e); [|discriminate].
      destruct (Json.scan_items s2) as [[its' r']|] eqn:E; [|discriminate].
      intros [= <- <-]. apply IH in E; simpl in *; lia.
  - destruct (Z.leb (Unicode.byte x) 31); [discriminate|].
    destruct (Json.scan_items s1) as [[its' r']|] eqn:E; [|discriminate].
    intros [= <- <-]. apply IH in E; simpl in *; lia.
Qed.

Lemma occ_scanstring c s x r :
  Json.scanstring s = Some (x, r) -> (occ c r <= occ c s)%nat.
Proof.
  unfold Json.scanstring.
  destruct (Json.scan_items s) as [[its r']|] eqn:E; [|discriminate].
  intros [= <- <-]. now apply (occ_scan_items c) in E.
Qed.

Lemma dcount_dict_set k v d : (dcount (dict_set k v d) <= dcount d + dicts v)%nat.
Proof.
  unfold dcount. induction d as [|[k' v'] d IH]; simpl; [lia|].
  destruct (String.eqb k k'); simpl; lia.
Qed.

Lemma lcount_snoc l v : lcount (l ++ [v]) = (lcount l + dicts v)%nat.
Proof.
  unfold lcount. rewrite map_app, list_sum_app. simpl. lia.
Qed.

Lemma match_number_flat s v r :
  Json.match_number s = Some (v, r) -> dicts v = O.
Proof.
  unfold Json.match_number. intros H.
  repeat (break_match; try discriminate);
    match goal with
    | E : Some _ = Some _ |- _ => inversion E; subst; reflexivity
    end.
Qed.

Lemma number_flat s v r : Json.number s = Ok (v, r) -> dicts v = O.
Proof.
  unfold Json.number.
  destruct (Json.match_number s) as [[w t]|] eqn:E; [|discriminate].
  apply match_number_flat in E.
  destruct w; try (intros [= <- <-]; exact E).
  destruct (digits_allowed _); [|discriminate]. intros [= <- <-]. exact E.
Qed.

Lemma occ_number c s v r :
  Json.number s = Ok (v, r) -> (occ c r <= occ c s)%nat.
Proof.
  unfold Json.number.
  destruct (Json.match_number s) as [[w t]|] eqn:E; [|discriminate].
  apply (occ_match_number c) in E.
  destruct w; try (intros [= <- <-]; exact E).
  destruct (digits_allowed _); [|discriminate]. intros [= <- <-]. exact E.
Qed.

Ltac occ_facts c :=
  repeat match goal with
         | H : Json.number _ = Ok _ |- _ =>
             pose proof (@number_flat _ _ _ H);
             apply (occ_number c) in H
         end;
  change (dcount []) with O in *; change (lcount []) with O in *;
  repeat match goal with
         | H : Json.expect _ _ = Some _ |- _ => apply (occ_expect c) in H
         | H : Json.strip_prefix _ _ = Some _ |- _ => apply (occ_strip_prefix c) in H
         | H : Json.scanstring _ = Some _ |- _ => apply (occ_scanstring c) in H
         | H : Json.match_number _ = Some _ |- _ => apply (occ_match_number c) in H
         end;
  repeat match goal with
         | |- context [Json.skip_ws ?s] =>
             lazymatch goal with
             | _ : (occ c (Json.skip_ws s) <= occ c s)%nat |- _ => fail
             | _ => pose proof (occ_skip_ws c s)
             end
         | _ : context [Json.skip_ws ?s] |- _ =>
             lazymatch goal with
             | _ : (occ c (Json.skip_ws s) <= occ c s)%nat |- _ => fail
             | _ => pose proof (occ_skip_ws c s)
             end
         end.

(** Every object that is decoded uses up a closing brace of its own. *)
Lemma scan_dicts n :
  (forall k s v r, Json.scan_once n k s = Ok (v, r) ->
     (occ Re.close_brace r + dicts v <= occ Re.close_brace s)%nat) /\
  (forall k acc s v r, Json.members n k acc s = Ok (v, r) ->
     (occ Re.close_brace r + dicts v <= occ Re.close_brace s + dcount acc)%nat) /\
  (forall k acc s v r, Json.elements n k acc s = Ok (v, r) ->
     (occ Re.close_brace r + dicts v <= occ Re.close_brace s + lcount acc)%nat).
Proof.
  induction n as [|n (IHs & IHm & IHe)];
    [repeat split; intros; discriminate|].
  repeat split.
  - intros k s v r H. destruct s as [|c s']; [discriminate|].
    cbn [Json.scan_once] in H.
    repeat (break_match; try discriminate); invert_results;
      repeat match goal with
             | H : Some _ = Some _ |- _ => inversion H; subst; clear H
             | H : Json.members _ _ _ _ = Ok _ |- _ => apply IHm in H
             | H : Json.elements _ _ _ _ = Ok _ |- _ => apply IHe in H
             end;
      occ_facts Re.close_brace;
      repeat match goal with
             | H : (_ =? _)%char = true |- _ => apply Ascii.eqb_eq in H; subst
             end;
      cbv [Re.close_brace] in *; simpl in *; lia.
  - intros k acc s v r H. cbn [Json.members] in H.
    repeat (break_match; try discriminate); invert_results;
      repeat match goal with
             | H : Some _ = Some _ |- _ => inversion H; subst; clear H
             | H : Json.scan_once _ _ _ = Ok _ |- _ => apply IHs in H
             | H : Json.members _ _ _ _ = Ok _ |- _ => apply IHm in H
             end;
      occ_facts Re.close_brace;
      match goal with
      | |- context [dict_set ?k ?x ?a] => pose proof (dcount_dict_set k x a)
      | _ : context [dict_set ?k ?x ?a] |- _ => pose proof (dcount_dict_set k x a)
      end;
      cbn [dicts] in *; unfold dcount in *;
      cbv [Re.close_brace] in *; simpl in *; lia.
  - intros k acc s v r H. cbn [Json.elements] in H.
    repeat (break_match; try discriminate); invert_results;
      repeat match goal with
             | H : Some _ = Some _ |- _ => inversion H; subst; clear H
             | H : Json.scan_once _ _ _ = Ok _ |- _ => apply IHs in H
             | H : Json.elements _ _ _ _ = Ok _ |- _ => apply IHe in H
             end;
      occ_facts Re.close_brace;
      cbn [dicts] in *; unfold lcount in *;
      rewrite ?map_app, ?list_sum_app in *;
      cbv [Re.close_brace] in *; simpl in *; lia.
Qed.

Lemma occ_app c a b : occ c (a ++ b) = (occ c a + occ c b)%nat.
Proof. induction a as [|x a IH]; simpl; [reflexivity | rewrite IH; lia]. Qed.

Lemma occ_free c s : Re.free_of c s = true -> occ c s = O.
Proof.
  induction s as [|x s IH]; simpl; [reflexivity|].
  intros H. apply andb_true_iff in H as [Hx Hs].
  destruct (Ascii.eqb x c); [discriminate|]. now rewrite IH.
Qed.

Lemma occ_block m : block_shape m -> occ Re.close_brace m = 1%nat.
Proof.
  intros (body & -> & Hb). simpl. rewrite occ_app, (@occ_free _ _ Hb). reflexivity.
Qed.

(** A block of the engine that decodes is an object none of whose values
    holds an object: there is no second [}] to close one. *)
Lemma loads_block_flat m v :
  block_shape m -> Json.loads m = Ok v ->
  exists d, v = VDict d /\ dcount d = O.
Proof.
  intros Hm H. pose proof (@occ_block m Hm) as Ho.
  destruct Hm as (body & -> & _).
  destruct (@loads_brace _ _ H) as [d ->]. exists d. split; [reflexivity|].
  unfold Json.loads, Json.loads_within in H.
  match type of H with
  | context [Json.scan_once ?n ?k ?s] =>
      destruct (Json.scan_once n k s) as [[v r]|] eqn:E; [|discriminate];
      pose proof (occ_skip_ws Re.close_brace
                    (String Re.open_brace (body ++ String Re.close_brace ""))) as Hw
  end.
  destruct (Json.skip_ws r); [|discriminate]. inversion H; subst.
  apply (proj1 (scan_dicts _)) in E. cbn [dicts] in E. unfold dcount. lia.
Qed.

Lemma convert_feet_flat query d f :
  llm_utils.convert_feet query (VDict d) = Ok f ->
  exists d', f = VDict d' /\ (dcount d' <= dcount d)%nat.
Proof.
  unfold llm_utils.convert_feet, setitem, bind. intros H.
  repeat (break_match; try discriminate); invert_results;
    eexists; (split; [reflexivity|]);
    try match goal with
        | |- context [dict_set ?k ?x ?a] => pose proof (dcount_dict_set k x a)
        end; simpl in *; lia.
Qed.

Lemma convert_zoning_flat d f :
  llm_utils.convert_zoning (VDict d) = Ok f ->
  exists d', f = VDict d' /\ (dcount d' <= dcount d)%nat.
Proof.
  unfold llm_utils.convert_zoning, setitem, bind. intros H.
  repeat (break_match; try discriminate); invert_results;
    eexists; (split; [reflexivity|]);
    try match goal with
        | |- context [dict_set ?k ?x ?a] => pose proof (dcount_dict_set k x a)
        end; simpl in *; lia.
Qed.

Lemma dcount_lookup d k x :
  dcount d = O -> lookup k d = Some x -> dicts x = O.
Proof.
  unfold dcount. induction d as [|[k' v] d IH]; simpl; [discriminate|].
  intros H. destruct (String.eqb k k').
  - intros [= <-]. lia.
  - apply IH. lia.
Qed.

(** No value of a candidate block that decodes, and no value of a filter
    that [parse_query] returns, is or holds an object: a reply with a
    nested object is cut at the inner [}] and what is cut does not
    decode. *)
Theorem filters_are_flat :
  (forall text m v,
      In m (Re.findall text) -> Json.loads m = Ok v ->
      exists d, v = VDict d /\
                forall k x, lookup k d = Some x -> dicts x = O) /\
  (forall query r d,
      llm_utils.parse_query query r = Ok (VDict d) ->
      forall k x, lookup k d = Some x -> dicts x = O).
Proof.
  assert (B : forall text m v,
             In m (Re.findall text) -> Json.loads m = Ok v ->
             exists d, v = VDict d /\ dcount d = O).
  { intros text m v Hin H.
    pose proof (@findall_shape (Re.findall text) text eq_refl) as Hs.
    rewrite Forall_forall in Hs. apply (@loads_block_flat m v); [now apply Hs|exact H]. }
  split.
  - intros text m v Hin H. destruct (B _ _ _ Hin H) as (d & -> & Hd).
    exists d. split; [reflexivity|]. intros k x. now apply dcount_lookup.
  - intros query r d H k x. apply dcount_lookup.
    destruct (llm_utils.generated_text r) as [text|e] eqn:E.
    + rewrite (parse_query_text _ _ E) in H.
      destruct (Str.printable text); [|inversion H; subst; reflexivity].
      destruct (llm_utils.for_matches query (Re.findall text)) as [g|] eqn:F;
        inversion H; subst; [|reflexivity].
      apply for_matches_ok in F as [F|(m & d0 & Hin & Hm & _ & Hn)];
        [now inversion F|].
      destruct (B _ _ _ Hin Hm) as (d0' & Heq & Hd0). inversion Heq; subst d0'.
      unfold normalize, bind in Hn.
      destruct (llm_utils.convert_feet query (VDict d0)) as [f1|] eqn:E1;
        [|discriminate].
      destruct (@convert_feet_flat _ _ _ E1) as (d1 & -> & H1).
      destruct (@convert_zoning_flat _ _ Hn) as (d2 & Heq2 & H2).
      inversion Heq2; subst. lia.
    + rewrite (parse_query_no_text _ _ E) in H. now inversion H.
Qed.

(** *** Zoning codes written with the ASCII digits *)

Lemma digit_is_decimal c :
  Json.is_digit c = true ->
  (Unicode.byte c <? 192) = true /\
  Unicode.is_decimal (Unicode.byte c) = true /\
  Unicode.decimal_value (Unicode.byte c) = Unicode.byte c - 48.
Proof.
  unfold Json.is_digit. intros H. apply andb_true_iff in H as [Hlo Hhi].
  apply Z.leb_le in Hlo. apply Z.leb_le in Hhi.
  split; [apply Z.ltb_lt; lia|].
  unfold Unicode.is_decimal, Unicode.decimal_value, Unicode.decimal_zeros.
  cbn [existsb find].
  replace (48 <=? Unicode.byte c) with true by (symmetry; apply Z.leb_le; lia).
  replace (Unicode.byte c <=? 48 + 9) with true by (symmetry; apply Z.leb_le; lia).
  now split.
Qed.

Lemma decode_ascii_digits s :
  ascii_digits s = true ->
  Unicode.decode s = map Unicode.byte (list_ascii_of_string s) /\
  forallb Unicode.is_decimal (Unicode.decode s) = true.
Proof.
  induction s as [|c s IH]; [now split|].
  cbn [ascii_digits]. intros H. apply andb_true_iff in H as [Hc Hs].
  destruct (digit_is_decimal c Hc) as (Hlt & Hd & _).
  destruct (IH Hs) as [IHd IHf].
  assert (E : Unicode.decode (String c s) = Unicode.byte c :: Unicode.decode s).
  { cbn [Unicode.decode]. now rewrite Hlt. }
  rewrite E. split.
  - cbn [list_ascii_of_string map]. now rewrite IHd.
  - cbn [forallb]. now rewrite Hd, IHf.
Qed.


Lemma length_decode_ascii_digits s :
  ascii_digits s = true ->
  List.length (Unicode.decode s) = String.length s.
Proof.
  intros H. destruct (decode_ascii_digits s H) as [-> _].
  rewrite length_map. clear H.
  induction s as [|c s IH]; simpl; [reflexivity | now rewrite IH].
Qed.


(** A zoning block whose value is a string of ASCII digits with more
    digits than the interpreter converts is lost: [int] raises
    [ValueError], the result is the empty dict whatever the query and
    whatever blocks follow, and the view answers 400. *)
Theorem zoning_too_many_digits
        (request : dict) (query text : string) (r : llm_utils.reply)
        (pre post : list string) (m : string) (d : dict) (s : string) :
  lookup "query" request = Some (VStr query) ->
  llm_utils.generated_text r = Ok text ->
  Re.findall text = (pre ++ m :: post)%list ->
  forallb skipped pre = true ->
  Json.loads m = Ok (VDict d) ->
  has_required d = true ->
  lookup "attribute" d = Some (VStr "zoning") ->
  lookup "value" d = Some (VStr s) ->
  ascii_digits s = true ->
  digits_allowed (String.length s) = false ->
  llm_utils.parse_query (VStr query) r = Ok EmptyResult /\
  app.query_buildings (VDict request) r =
  Ok {| app.status := 400; app.body := app.invalid_output |}.
Proof.
  intros Hq Ht Hf Hpre Hm Hd Ha Hv Hs Hl.
  assert (P : llm_utils.parse_query (VStr query) r = Ok EmptyResult).
  { destruct (decode_ascii_digits s Hs) as [Hdec Hall].
    assert (Hne : s <> EmptyString).
    { intros ->. unfold digits_allowed in Hl. simpl in Hl.
      now rewrite orb_true_r in Hl. }
    assert (Hg : Str.isdigit s = true).
    { unfold Str.isdigit. destruct (Unicode.decode s) as [|cp cps] eqn:E.
      - destruct s; [contradiction|discriminate Hdec].
      - rewrite forallb_forall in *. intros x Hin.
        unfold Unicode.is_digit. now rewrite (Hall x Hin). }
    rewrite <- (length_decode_ascii_digits s Hs) in Hl.
    rewrite (parse_query_decided _ _ _ _ _ Ht Hf Hpre Hm Hd).
    assert (Hma : mem "attribute" d = true) by (unfold mem; now rewrite Ha).
    unfold settle, normalize.
    rewrite convert_feet_idle;
      [|exact Hma | rewrite (dict_get_lookup _ _ Ha); apply andb_false_r].
    simpl.
    rewrite (convert_zoning_refused d Ha Hv Hg); [|now rewrite Hl, andb_false_r].
    now destruct (Str.printable text). }
  split; [exact P|].
  rewrite (@query_buildings_object request r []); [reflexivity|].
  unfold dict_get_default. now rewrite Hq.
Qed.

(** *** A generated text that cannot be printed *)

(** The generated text is written to the standard output before it is
    searched.  When the output refuses it, as it does for a lone
    surrogate that its error handler does not take, the call ends with
    the empty dict and the view answers 400, whatever filter the text
    holds. *)
Theorem unprintable_text_is_rejected
        (request : dict) (r : llm_utils.reply) (text : string) :
  llm_utils.generated_text r = Ok text ->
  Str.printable text = false ->
  (forall query, llm_utils.parse_query query r = Ok EmptyResult) /\
  app.query_buildings (VDict request) r =
  Ok {| app.status := 400; app.body := app.invalid_output |}.
Proof.
  intros Ht Hp.
  assert (P : forall query, llm_utils.parse_query query r = Ok EmptyResult).
  { intros query. now rewrite (parse_query_text _ _ Ht), Hp. }
  split; [exact P|].
  now rewrite (@query_buildings_object request r [] (P _)).
Qed.
End Properties.

(* ------------------------------------------------------------------ *)
(** ** On texts

    The theorems applied to replies, and the replies on which the
    specification and the code part, under the interpreter
    [Examples.cpython]. *)

#[export] Existing Instance Examples.cpython.

Lemma parse_query_never_raises_witness :
  llm_utils.parse_query (VStr "tall buildings")
    (Examples.reply (Examples.not_json ++ " " ++ Examples.no_operator))
  = Ok EmptyResult.
Proof.
  apply (proj2 (parse_query_never_raises "tall buildings"
                  (Examples.reply (Examples.not_json ++ " " ++ Examples.no_operator)))).
  apply no_candidate
    with (text := (Examples.not_json ++ " " ++ Examples.no_operator)%string).
  - vm_compute. reflexivity.
  - vm_compute. reflexivity.
Defined.

Lemma feet_on_non_number_is_empty_witness :
  llm_utils.parse_query (VStr "Buildings over 100 FEET")
    (Examples.reply
       (Examples.no_operator ++ Examples.height_100_str ++ Examples.height_100))
  = Ok EmptyResult.
Proof.
  apply (@feet_on_non_number_is_empty Examples.cpython
           "Buildings over 100 FEET"
           (Examples.no_operator ++ Examples.height_100_str ++ Examples.height_100)
           _
           [Examples.no_operator]
           [Examples.height_100]
           Examples.height_100_str
           [("attribute", VStr "height"); ("operator", VStr ">");
            ("value", VStr "100")]
           (VStr "100")); vm_compute; reflexivity.
Defined.

Lemma get_buildings_round_trip_witness :
  exists st0,
    app.startup (Some (dq "{'type': 'FeatureCollection', 'features': []}")) = Ok st0 /\
    app.get_buildings st0
    = {| app.status := 200;
         app.body := VDict [("type", VStr "FeatureCollection");
                            ("features", VList [])] |} /\
    forall rqs,
      snd (app.serve st0 rqs) = st0 /\
      forall i, nth_error rqs i = Some app.GET_buildings ->
                nth_error (fst (app.serve st0 rqs)) i
                = Some (Ok {| app.status := 200;
                              app.body := VDict [("type", VStr "FeatureCollection");
                                                 ("features", VList [])] |}).
Proof.
  apply (get_buildings_round_trip
           (dq "{'type': 'FeatureCollection', 'features': []}")).
  vm_compute. reflexivity.
Defined.







(** C4 fails on the code.  SUPERSCRIPT TWO is a digit for [str.isdigit]
    but no decimal digit for [int], which raises [ValueError]; the
    handler around the whole body swallows it, so the zoning block is
    neither converted nor returned unchanged, and the block after it is
    never looked at. *)
Theorem zoning_superscript_digit :
  Json.loads Examples.zoning_superscript
  = Ok (Examples.filter "zoning" "==" (VStr (Unicode.encode 178))) /\
  Str.isdigit (Unicode.encode 178) = true /\
  Str.int (Unicode.encode 178) = Raise ValueError /\
  llm_utils.parse_query (VStr "zoning two")
    (Examples.reply (Examples.zoning_superscript ++ " " ++ Examples.zoning_5))
  = Ok EmptyResult.
Proof. repeat split; vm_compute; reflexivity. Qed.

(** A second reply on which the zoning rule loses the block: the value
    is a string of 4301 decimal digits, one more than [int] converts. *)
Lemma zoning_long_digit_string :
  Str.isdigit (Examples.nines 4301) = true /\
  Str.int (Examples.nines 4301) = Raise ValueError /\
  llm_utils.parse_query (VStr "zoning")
    (Examples.reply (Examples.zoning_nines 4301 ++ " " ++ Examples.zoning_5))
  = Ok EmptyResult.
Proof. split; [|split]; vm_compute; reflexivity. Qed.

Lemma zoning_examples :
  llm_utils.parse_query (VStr "zoning five") (Examples.reply Examples.zoning_5)
  = Ok (Examples.filter "zoning" "==" (VInt 5)) /\
  llm_utils.parse_query (VStr "zoning") (Examples.reply Examples.zoning_rcg)
  = Ok (Examples.filter "zoning" "==" (VStr "RC-G")).
Proof. split; vm_compute; reflexivity. Qed.

Lemma result_has_keys_of_block_witness :
  exists text m d0 d,
    llm_utils.generated_text (Examples.reply Examples.area_with_unit) = Ok text /\
    In m (Re.findall text) /\
    Json.loads m = Ok (VDict d0) /\
    VDict [("attribute", VStr "area"); ("operator", VStr ">");
           ("value", VInt 500); ("unit", VStr "m2")] = VDict d /\
    keys d = keys d0 /\
    has_required d = true.
Proof.
  apply (@result_has_keys_of_block Examples.cpython "big lots"
           (Examples.reply Examples.area_with_unit)).
  - vm_compute. reflexivity.
  - discriminate.
Defined.

(** C7 as stated fails: a block with a fourth key is returned with it. *)
Lemma result_with_fourth_key :
  exists d,
    llm_utils.parse_query (VStr "big lots") (Examples.reply Examples.area_with_unit)
    = Ok (VDict d) /\
    keys d = ["attribute"; "operator"; "value"; "unit"].
Proof. eexists. split; vm_compute; reflexivity. Qed.

Lemma query_buildings_status_witness :
  app.query_buildings (VDict []) (Examples.reply Examples.not_json)
  = Ok {| app.status := 400; app.body := app.invalid_output |}.
Proof.
  apply (proj2 (proj2 (query_buildings_status [] (Examples.reply Examples.not_json)))).
  vm_compute. reflexivity.
Defined.

(** C8 as stated fails: the filter has its three keys and a value that
    is not null, yet the answer is 400, because the attribute is the
    empty string. *)
Lemma empty_attribute_rejected :
  llm_utils.parse_query (VStr "") (Examples.reply Examples.empty_attribute)
  = Ok (Examples.filter "" ">" (VInt 1)) /\
  app.query_buildings (VDict []) (Examples.reply Examples.empty_attribute)
  = Ok {| app.status := 400; app.body := app.invalid_output |}.
Proof. split; vm_compute; reflexivity. Qed.

Lemma query_not_a_string_is_rejected_witness :
  llm_utils.parse_query (VInt 100) (Examples.reply Examples.height_100)
  = Ok EmptyResult /\
  app.query_buildings (VDict [("query", VInt 100)])
                      (Examples.reply Examples.height_100)
  = Ok {| app.status := 400; app.body := app.invalid_output |}.
Proof.
  apply (@query_not_a_string_is_rejected Examples.cpython
           [("query", VInt 100)] (VInt 100) (Examples.reply Examples.height_100)).
  - reflexivity.
  - discriminate.
Defined.

Lemma only_value_is_rewritten_witness :
  exists text m d0 d,
    llm_utils.generated_text (Examples.reply Examples.height_100) = Ok text /\
    In m (Re.findall text) /\
    Json.loads m = Ok (VDict d0) /\
    VDict [("attribute", VStr "height"); ("operator", VStr ">");
           ("value", VFloat Examples.f30_48)] = VDict d /\
    (forall k, k <> "value" -> lookup k d = lookup k d0) /\
    (eq_str (dict_get "attribute" d0) "height" = false ->
     eq_str (dict_get "attribute" d0) "zoning" = false ->
     d = d0).
Proof.
  apply (@only_value_is_rewritten Examples.cpython (VStr "over 100 feet")
           (Examples.reply Examples.height_100)).
  - vm_compute. reflexivity.
  - discriminate.
Defined.

Lemma null_value_block_gives_400_witness :
  app.query_buildings (VDict [("query", VStr "large lots")])
    (Examples.reply (Examples.not_json ++ Examples.area_null ++ Examples.area_7))
  = Ok {| app.status := 400; app.body := app.invalid_output |}.
Proof.
  apply (@null_value_block_gives_400 Examples.cpython
           [("query", VStr "large lots")]
           (Examples.reply (Examples.not_json ++ Examples.area_null ++ Examples.area_7))
           (Examples.not_json ++ Examples.area_null ++ Examples.area_7)
           [Examples.not_json] [Examples.area_7] Examples.area_null
           [("attribute", VStr "area"); ("operator", VStr ">"); ("value", VNone)]);
    vm_compute; reflexivity.
Defined.



Lemma filters_are_flat_witness :
  exists d, Ok (VDict [("a", VList [VInt 1; VStr "{"])]) = Ok (VDict d) /\
            forall k x, lookup k d = Some x -> dicts x = O.
Proof.
  assert (H := proj1 (@filters_are_flat Examples.cpython)
                 (dq "see {'a': [1, '{']} and {'b': {'c': 2}}")
                 (dq "{'a': [1, '{']}")
                 (VDict [("a", VList [VInt 1; VStr "{"])])).
  destruct H as (d & Hd & Hflat).
  - vm_compute. left. reflexivity.
  - vm_compute. reflexivity.
  - exists d. split; [now rewrite Hd | exact Hflat].
Defined.


Lemma zoning_too_many_digits_witness :
  llm_utils.parse_query (VStr "zoning")
    (Examples.reply (Examples.zoning_nines 4301 ++ " " ++ Examples.zoning_5))
  = Ok EmptyResult /\
  app.query_buildings (VDict [("query", VStr "zoning")])
    (Examples.reply (Examples.zoning_nines 4301 ++ " " ++ Examples.zoning_5))
  = Ok {| app.status := 400; app.body := app.invalid_output |}.
Proof.
  apply (@zoning_too_many_digits Examples.cpython
           [("query", VStr "zoning")] "zoning"
           (Examples.zoning_nines 4301 ++ " " ++ Examples.zoning_5) _
           [] [Examples.zoning_5] (Examples.zoning_nines 4301)
           [("attribute", VStr "zoning"); ("operator", VStr "==");
            ("value", VStr (Examples.nines 4301))]
           (Examples.nines 4301));
    vm_compute; reflexivity.
Defined.

Lemma unprintable_text_is_rejected_witness :
  (forall query,
      llm_utils.parse_query query (Examples.reply_escaped Examples.surrogate_then_area)
      = Ok EmptyResult) /\
  app.query_buildings (VDict [("query", VStr "lots above 7")])
    (Examples.reply_escaped Examples.surrogate_then_area)
  = Ok {| app.status := 400; app.body := app.invalid_output |}.
Proof.
  apply (@unprintable_text_is_rejected Examples.cpython
           [("query", VStr "lots above 7")]
           (Examples.reply_escaped Examples.surrogate_then_area)
           (Unicode.encode 55296 ++ " " ++ Examples.area_7));
    vm_compute; reflexivity.
Defined.
